(** * prompt-scavenger: the namespace codec, the blob round trip and the
      completion call of [main.go], embedded shallowly.

    Go values are modelled as the program has them: a [string] and a
    [[]byte] are byte sequences, a byte is a [Z] in [0, 256), a function
    that returns [(value, error)] returns a pair whose second component is
    [None] for Go's [nil] error, and a pointer or slice result is an
    [option] whose [None] is Go's [nil].

    [main.go] is glue around three imported packages.  [encoding/hex] and
    the namespace type of [celestia-openrpc/types/share] are deterministic
    and are modelled here as those packages define them; the node, the blob
    constructor and the completion service are taken as an environment
    record ([Env]), so every statement about [main], [createAndSubmitBlob]
    and [gpt3] holds for each behaviour those collaborators may show. *)

From Stdlib Require Import ZArith List String Ascii Bool Lia.
Import ListNotations.
Local Open Scope string_scope.
Local Open Scope list_scope.
Local Open Scope Z_scope.

(** ** Bytes and strings *)

Definition byte := Z.

(** Go's [[]byte(s)]: the bytes of a string, unchanged. *)
Definition bytes_of_string (s : string) : list byte :=
  map (fun a => Z.of_N (N_of_ascii a)) (list_ascii_of_string s).

(** Go's [string(b)]: the string holding the bytes of a slice, unchanged. *)
Definition string_of_bytes (b : list byte) : string :=
  string_of_list_ascii (map (fun z => ascii_of_N (Z.to_N z)) b).

(** Go's [len] of a slice or a string, as an integer. *)
Definition len {A} (l : list A) : Z := Z.of_nat (List.length l).

(** ** Errors

    The program has no error types of its own: it builds errors with
    [fmt.Errorf] around the errors of the packages it calls.  [Errorf0]
    is a call with a format string alone, [Errorf1] a call with one error
    argument (wrapped with [%w] or printed with [%v]). *)
Inductive error : Type :=
| InvalidByteError (b : byte)              (* encoding/hex: invalid byte *)
| ErrLength                                (* encoding/hex: odd length hex string *)
| ErrNamespaceIDSize (max got : Z)         (* share: namespace id must be > 0 && <= max *)
| ErrNamespaceInvalid (reason : string)    (* share: a namespace that fails validation *)
| ErrRemote (msg : string)                 (* a fault reported by the node or the completion service *)
| Errorf0 (format : string)
| Errorf1 (format : string) (arg : error).

(** ** encoding/hex *)
Module hex.

(** [reverseHexTable]: the value of a hexadecimal digit, [0xff] for any
    other byte.  Both letter cases are digits. *)
Definition reverseHexTable (c : byte) : Z :=
  if (48 <=? c) && (c <=? 57) then c - 48
  else if (65 <=? c) && (c <=? 70) then c - 55
  else if (97 <=? c) && (c <=? 102) then c - 87
  else 255.

(** [Decode]: two characters per output byte, left to right; the first bad
    character is reported before a bad length; the bytes decoded before an
    error are still returned. *)
Fixpoint Decode (src : list byte) : list byte * option error :=
  match src with
  | p :: q :: rest =>
      let a := reverseHexTable p in
      let b := reverseHexTable q in
      if 15 <? a then ([], Some (InvalidByteError p))
      else if 15 <? b then ([], Some (InvalidByteError q))
      else
        let (dst, err) := Decode rest in
        (Z.lor (Z.shiftl a 4) b :: dst, err)
  | [p] =>
      if 15 <? reverseHexTable p then ([], Some (InvalidByteError p))
      else ([], Some ErrLength)
  | [] => ([], None)
  end.

Definition DecodeString (s : string) : list byte * option error :=
  Decode (bytes_of_string s).

End hex.

(** ** celestia-openrpc/types/share: namespaces *)
Module share.

Definition Namespace := list byte.

Definition NamespaceVersionSize : Z := 1.
Definition NamespaceIDSize : Z := 28.
Definition NamespaceSize : Z := NamespaceVersionSize + NamespaceIDSize.
Definition NamespaceVersionZero : Z := 0.
Definition NamespaceVersionMax : Z := 255.
Definition NamespaceVersionZeroPrefixSize : Z := 18.
Definition NamespaceVersionZeroIDSize : Z :=
  NamespaceIDSize - NamespaceVersionZeroPrefixSize.
Definition NamespaceVersionZeroPrefix : list byte :=
  repeat 0 (Z.to_nat NamespaceVersionZeroPrefixSize).

Definition primaryReservedNamespace (lastByte : byte) : Namespace :=
  NamespaceVersionZero :: repeat 0 (Z.to_nat (NamespaceIDSize - 1)) ++ [lastByte].
Definition secondaryReservedNamespace (lastByte : byte) : Namespace :=
  NamespaceVersionMax :: repeat 255 (Z.to_nat (NamespaceIDSize - 1)) ++ [lastByte].

Definition MaxPrimaryReservedNamespace := primaryReservedNamespace 255.
Definition MinSecondaryReservedNamespace := secondaryReservedNamespace 0.
Definition TailPaddingNamespace := secondaryReservedNamespace 254.
Definition ParitySharesNamespace := secondaryReservedNamespace 255.

(** [bytes.Compare]: lexicographic order, a proper prefix first. *)
Fixpoint Compare (a b : list byte) : Z :=
  match a, b with
  | [], [] => 0
  | [], _ :: _ => -1
  | _ :: _, [] => 1
  | x :: a', y :: b' =>
      if x <? y then -1 else if y <? x then 1 else Compare a' b'
  end.

Definition Equals (n m : Namespace) : bool := Compare n m =? 0.

(** [bytes.HasPrefix]. *)
Fixpoint HasPrefix (s prefix : list byte) : bool :=
  match prefix, s with
  | [], _ => true
  | _ :: _, [] => false
  | y :: prefix', x :: s' => (x =? y) && HasPrefix s' prefix'
  end.

(** The version byte; called on validated (non-empty) namespaces only. *)
Definition Version (n : Namespace) : Z := hd 0 n.
Definition ID (n : Namespace) : list byte := tl n.

Definition Validate (n : Namespace) : option error :=
  if negb (len n =? NamespaceSize) then
    Some (ErrNamespaceInvalid "invalid namespace length")
  else if negb (Version n =? NamespaceVersionZero)
          && negb (Version n =? NamespaceVersionMax) then
    Some (ErrNamespaceInvalid "invalid namespace version")
  else if negb (len (ID n) =? NamespaceIDSize) then
    Some (ErrNamespaceInvalid "invalid namespace id length")
  else if (Version n =? NamespaceVersionZero)
          && negb (HasPrefix (ID n) NamespaceVersionZeroPrefix) then
    Some (ErrNamespaceInvalid "invalid namespace id: leading zeroes expected")
  else None.

Definition IsPrimaryReserved (n : Namespace) : bool :=
  Compare n MaxPrimaryReservedNamespace <? 1.
Definition IsSecondaryReserved (n : Namespace) : bool :=
  -1 <? Compare n MinSecondaryReservedNamespace.
Definition IsReserved (n : Namespace) : bool :=
  IsPrimaryReserved n || IsSecondaryReserved n.

Definition ValidateForData (n : Namespace) : option error :=
  match Validate n with
  | Some e => Some e
  | None =>
      if Equals n ParitySharesNamespace || Equals n TailPaddingNamespace then
        Some (ErrNamespaceInvalid
                "invalid data namespace: parity and tail padding namespace are forbidden")
      else None
  end.

Definition ValidateForBlob (n : Namespace) : option error :=
  match ValidateForData n with
  | Some e => Some e
  | None =>
      if IsReserved n then
        Some (ErrNamespaceInvalid "invalid data namespace: reserved data is forbidden")
      else None
  end.

(** [NewBlobNamespaceV0]: an id of 1 to 10 bytes is copied to the end of a
    zeroed namespace of [NamespaceSize] bytes (so the version byte and the
    padding are zero); the namespace is returned together with the result
    of its validation as a blob namespace. *)
Definition NewBlobNamespaceV0 (id : list byte) : option Namespace * option error :=
  if (len id =? 0) || (NamespaceVersionZeroIDSize <? len id) then
    (None, Some (ErrNamespaceIDSize NamespaceVersionZeroIDSize (len id)))
  else
    let n := repeat 0 (Z.to_nat (NamespaceSize - len id)) ++ id in
    (Some n, ValidateForBlob n).

End share.

(** ** main.go: the namespace codec *)

(** [createNamespaceID] converts a hex string to a namespace. *)
Definition createNamespaceID (nIDString : string)
  : option share.Namespace * option error :=
  let (namespaceBytes, err) := hex.DecodeString nIDString in
  match err with
  | Some e => (None, Some (Errorf1 "error decoding hex string: %w" e))
  | None => share.NewBlobNamespaceV0 namespaceBytes
  end.

(** The spec's [NamespaceFormatError]: an error of the namespace
    constructor, passed on unwrapped. *)
Definition NamespaceFormatError (e : error) : Prop :=
  (exists max got, e = ErrNamespaceIDSize max got)
  \/ (exists reason, e = ErrNamespaceInvalid reason).

(** A nil slice is the empty slice wherever the program passes it on. *)
Definition slice (o : option (list byte)) : list byte :=
  match o with Some l => l | None => [] end.

(** ** celestia-openrpc: the client *)
Module nodeclient.

(** What a non-nil [*Client] points to.  The program never looks inside
    it: it only calls through it, and the node's state is the ledger of
    the world. *)
Inductive Client : Type := Connected.

End nodeclient.

(** ** celestia-openrpc/types/blob *)
Module blob.

Definition commitment := list byte.

Record Blob : Type := {
  Namespace : share.Namespace;
  Data : list byte;
  ShareVersion : Z;
  Commitment : commitment
}.

(** [GasPrice] is a [float64] of which the program only ever holds the
    value that [DefaultGasPrice()] returns. *)
Inductive GasPrice : Type := DefaultGasPrice.

End blob.

(** ** go-openai *)
Module openai.

Definition GPT3Dot5Turbo : string := "gpt-3.5-turbo".
Definition ChatMessageRoleUser : string := "user".

Record ChatCompletionMessage : Type := {
  Role : string;
  Content : string
}.

Record ChatCompletionRequest : Type := {
  Model : string;
  Messages : list ChatCompletionMessage
}.

Record ChatCompletionChoice : Type := {
  Message : ChatCompletionMessage
}.

Record ChatCompletionResponse : Type := {
  Choices : list ChatCompletionChoice
}.

End openai.

(** ** The process and its collaborators

    What [main.go] reads from its process ([os.Args], [os.Getenv]) and the
    answers of the packages whose work happens outside the program.  The
    node's ledger is threaded through [Submit], the one call that writes
    to it. *)
Record Env : Type := {
  Args : list string;
  Getenv : string -> string;
  node : Type;
  NewClient : node -> string -> string
              -> option nodeclient.Client * option error;
  NewBlobV0 : share.Namespace -> list byte -> option blob.Blob * option error;
  Submit : node -> list (option blob.Blob) -> blob.GasPrice
           -> node * (Z * option error);
  Get : node -> Z -> share.Namespace -> blob.commitment
        -> option blob.Blob * option error;
  CreateChatCompletion : string -> openai.ChatCompletionRequest
                         -> openai.ChatCompletionResponse * option error
}.

(** ** What a run does: its events *)
Inductive LogArg : Type :=
| ArgString (s : string)
| ArgUint (n : Z)
| ArgError (e : error).

Inductive Event : Type :=
| LogPrint (args : list LogArg)
| LogPrintf (format : string) (args : list LogArg)
| CallNewClient (addr token : string)
| CallSubmit (blobs : list (option blob.Blob)) (gas : blob.GasPrice)
| CallGet (height : Z) (ns : share.Namespace) (c : blob.commitment)
| CallCreateChatCompletion (authToken : string) (req : openai.ChatCompletionRequest)
| CallClose.

(** The events that reach out to the node or to the completion service. *)
Definition is_network_call (ev : Event) : bool :=
  match ev with
  | CallNewClient _ _ | CallSubmit _ _ | CallGet _ _ _
  | CallCreateChatCompletion _ _ => true
  | LogPrint _ | LogPrintf _ _ | CallClose => false
  end.

Definition is_completion_call (ev : Event) : bool :=
  match ev with
  | CallCreateChatCompletion _ _ => true
  | _ => false
  end.

(** How a computation ends: it returns, the process exits ([os.Exit], as
    [log.Fatal] does after printing), or the runtime panics. *)
Inductive Outcome (A : Type) : Type :=
| Return (a : A)
| Exit (code : Z)
| Panic (why : string).
Arguments Return {A} a.
Arguments Exit {A} code.
Arguments Panic {A} why.

Section Program.

Variable E : Env.

Record World : Type := {
  ledger : node E;
  trace : list Event
}.

Definition M (A : Type) : Type := World -> Outcome A * World.

Definition ret {A} (a : A) : M A := fun w => (Return a, w).

Definition bind {A B} (m : M A) (k : A -> M B) : M B :=
  fun w =>
    match m w with
    | (Return a, w') => k a w'
    | (Exit c, w') => (Exit c, w')
    | (Panic why, w') => (Panic why, w')
    end.

Definition emit (ev : Event) : M unit :=
  fun w => (Return tt, {| ledger := ledger w; trace := trace w ++ [ev] |}).

Definition os_Exit {A} (code : Z) : M A := fun w => (Exit code, w).

Definition panic {A} (why : string) : M A := fun w => (Panic why, w).

(** [defer d] around [m]: [d] runs when [m] returns or panics, not when
    the process exits inside [m]; a panic of [d] is the panic the
    process ends with. *)
Definition defer {A} (d : M unit) (m : M A) : M A :=
  fun w =>
    match m w with
    | (Exit c, w') => (Exit c, w')
    | (r, w') =>
        match d w' with
        | (Panic why, w'') => (Panic why, w'')
        | (_, w'') => (r, w'')
        end
    end.

End Program.

Arguments ledger {E} w.
Arguments trace {E} w.
Arguments ret {E A} a.
Arguments bind {E A B} m k.
Arguments emit {E} ev.
Arguments os_Exit {E A} code.
Arguments panic {E A} why.
Arguments defer {E A} d m.

Notation "x <- m ;; k" := (bind m (fun x => k))
  (at level 61, m at next level, right associativity).
Notation "' pat <- m ;; k" := (bind m (fun x => match x with pat => k end))
  (at level 61, pat pattern, m at next level, right associativity).
Notation "m ;; k" := (bind m (fun _ => k))
  (at level 61, right associativity).

(** ** main.go: the calls it makes, each leaving its event *)
Section Main.

Variable E : Env.

Definition nodeclient_NewClient (addr token : string)
  : M E (option nodeclient.Client * option error) :=
  fun w =>
    (Return (NewClient E (ledger w) addr token),
     {| ledger := ledger w; trace := trace w ++ [CallNewClient addr token] |}).

(** [client.Blob.Submit]: reading the field [Blob] of a nil client is a
    nil pointer dereference, before any call. *)
Definition client_Blob_Submit (client : option nodeclient.Client)
    (blobs : list (option blob.Blob)) (gas : blob.GasPrice)
  : M E (Z * option error) :=
  match client with
  | None => panic "nil pointer dereference"
  | Some _ =>
      fun w =>
        let (l', r) := Submit E (ledger w) blobs gas in
        (Return r, {| ledger := l'; trace := trace w ++ [CallSubmit blobs gas] |})
  end.

Definition client_Blob_Get (client : option nodeclient.Client) (height : Z)
    (ns : share.Namespace) (c : blob.commitment)
  : M E (option blob.Blob * option error) :=
  match client with
  | None => panic "nil pointer dereference"
  | Some _ =>
      fun w =>
        (Return (Get E (ledger w) height ns c),
         {| ledger := ledger w; trace := trace w ++ [CallGet height ns c] |})
  end.

Definition client_CreateChatCompletion (authToken : string)
    (req : openai.ChatCompletionRequest)
  : M E (openai.ChatCompletionResponse * option error) :=
  fun w =>
    (Return (CreateChatCompletion E authToken req),
     {| ledger := ledger w;
        trace := trace w ++ [CallCreateChatCompletion authToken req] |}).

(** [client.Close()]: the method is entered also on a nil client, which
    it then dereferences. *)
Definition client_Close (client : option nodeclient.Client) : M E unit :=
  emit CallClose ;;
  match client with
  | None => panic "nil pointer dereference"
  | Some _ => ret tt
  end.

Definition log_Printf (format : string) (args : list LogArg) : M E unit :=
  emit (LogPrintf format args).

Definition log_Fatal {A} (args : list LogArg) : M E A :=
  emit (LogPrint args) ;; os_Exit 1.

Definition log_Fatalf {A} (format : string) (args : list LogArg) : M E A :=
  emit (LogPrintf format args) ;; os_Exit 1.

(** [createAndSubmitBlob] creates a new blob and submits it to the network. *)
Definition createAndSubmitBlob (client : option nodeclient.Client)
    (ns : share.Namespace) (payload : string)
  : M E (option blob.Blob * Z * option error) :=
  let (createdBlob, err) := NewBlobV0 E ns (bytes_of_string payload) in
  match err with
  | Some e => ret (None, 0, Some (Errorf1 "Failed to create blob: %w" e))
  | None =>
      '(height, err) <-
         client_Blob_Submit client [createdBlob] blob.DefaultGasPrice ;;
      match err with
      | Some e => ret (None, 0, Some (Errorf1 "Failed to submit blob: %v" e))
      | None =>
          log_Printf "Blob submitted successfully at height: %d! \n"
                     [ArgUint height] ;;
          log_Printf "Explorer link: https://arabica.celenium.io/block/%d \n"
                     [ArgUint height] ;;
          ret (createdBlob, height, None)
      end
  end.

(** [gpt3] processes a given message and returns the response. *)
Definition gpt3 (msg : string) : M E (string * option error) :=
  let openAIKey := Getenv E "OPENAI_KEY" in
  if String.eqb openAIKey "" then
    ret ("", Some (Errorf0 "OPENAI_KEY environment variable not set"))
  else
    '(resp, err) <-
       client_CreateChatCompletion openAIKey
         {| openai.Model := openai.GPT3Dot5Turbo;
            openai.Messages :=
              [ {| openai.Role := openai.ChatMessageRoleUser;
                   openai.Content := msg |} ] |} ;;
    match err with
    | Some e => ret ("", Some (Errorf1 "ChatCompletion error: %w" e))
    | None =>
        match openai.Choices resp with
        | [] => panic "index out of range [0] with length 0"
        | c :: _ => ret (openai.Content (openai.Message c), None)
        end
    end.

Definition main : M E unit :=
  if negb (len (Args E) =? 4) then
    log_Fatal [ArgString "Usage: go run main.go <nodeIP> <namespace> <prompt>"]
  else
    let nodeIP := nth 1 (Args E) "" in
    let namespaceHex := nth 2 (Args E) "" in
    let prompt := nth 3 (Args E) "" in
    '(client, err) <- nodeclient_NewClient nodeIP "" ;;
    match err with
    | Some e => log_Fatalf "Failed to create client: %v" [ArgError e]
    | None =>
    defer (client_Close client) (
      let (namespaceID, err) := createNamespaceID namespaceHex in
      match err with
      | Some e => log_Fatalf "Failed to decode namespace: %v" [ArgError e]
      | None =>
      '(createdBlob, height, err) <-
         createAndSubmitBlob client (slice namespaceID) prompt ;;
      match err with
      | Some e => log_Fatal [ArgError e]
      | None =>
      match createdBlob with
      | None => panic "nil pointer dereference"
      | Some created =>
      '(fetchedBlob, err) <-
         client_Blob_Get client height (slice namespaceID)
                         (blob.Commitment created) ;;
      match err with
      | Some e => log_Fatalf "Failed to fetch blob: %v" [ArgError e]
      | None =>
      match fetchedBlob with
      | None => panic "nil pointer dereference"
      | Some fetched =>
      log_Printf "Fetched blob: %s\n" [ArgString (string_of_bytes (blob.Data fetched))] ;;
      '(promptAnswer, err) <- gpt3 (string_of_bytes (blob.Data fetched)) ;;
      match err with
      | Some e => log_Fatalf "Failed to process message with GPT-3: %v" [ArgError e]
      | None => log_Printf "GPT-3 response: %s\n" [ArgString promptAnswer]
      end end end end end end)
    end.

(** The process: [main] run on a node, its exit status and what it did.
    A return from [main] is status 0, an unrecovered panic status 2. *)
Definition exit_status (r : Outcome unit) : Z :=
  match r with
  | Return _ => 0
  | Exit code => code
  | Panic _ => 2
  end.

Definition run (n : node E) : Z * list Event :=
  let (r, w) := main {| ledger := n; trace := [] |} in
  (exit_status r, trace w).

End Main.

(** ** A reference environment

    A node that keeps every submitted list of blobs as one block, a blob
    constructor and a completion service that answers every request with
    one fixed choice: an environment in which a run goes through, used to
    run the program on concrete arguments. *)
Module ref.

Definition bytes_Equal (a b : list byte) : bool := share.Compare a b =? 0.

Definition ledger_t : Type := list (list blob.Blob).

Definition present (blobs : list (option blob.Blob)) : list blob.Blob :=
  flat_map (fun o => match o with Some b => [b] | None => [] end) blobs.

Definition submit (st : ledger_t) (blobs : list (option blob.Blob))
    (gas : blob.GasPrice) : ledger_t * (Z * option error) :=
  (st ++ [present blobs], (len st + 1, None)).

Definition matches (ns : share.Namespace) (c : blob.commitment)
    (b : blob.Blob) : bool :=
  bytes_Equal (blob.Namespace b) ns && bytes_Equal (blob.Commitment b) c.

Definition get (st : ledger_t) (height : Z) (ns : share.Namespace)
    (c : blob.commitment) : option blob.Blob * option error :=
  if height <? 1 then (None, Some (ErrRemote "height must be positive"))
  else
    match nth_error st (Z.to_nat (height - 1)) with
    | None => (None, Some (ErrRemote "header: not found"))
    | Some block =>
        match find (matches ns c) block with
        | Some b => (Some b, None)
        | None => (None, Some (ErrRemote "blob: not found"))
        end
    end.

Definition newBlobV0 (ns : share.Namespace) (data : list byte)
  : option blob.Blob * option error :=
  if len data =? 0 then (None, Some (ErrRemote "blob data must be > 0"))
  else
    match share.ValidateForBlob ns with
    | Some e => (None, Some e)
    | None =>
        (Some {| blob.Namespace := ns; blob.Data := data;
                 blob.ShareVersion := 0; blob.Commitment := ns ++ data |},
         None)
    end.

Definition reply (text : string) : openai.ChatCompletionResponse :=
  {| openai.Choices :=
       [ {| openai.Message :=
              {| openai.Role := "assistant"; openai.Content := text |} |} ] |}.

(** The process started with [args], with [OPENAI_KEY] set to [key] (unset
    when [key] is empty), against the reference node and a completion
    service that answers [answer]. *)
Definition env (args : list string) (key : string)
    (answer : openai.ChatCompletionResponse * option error) : Env :=
  {| Args := args;
     Getenv := fun name => if String.eqb name "OPENAI_KEY" then key else "";
     node := ledger_t;
     NewClient := fun _ _ _ => (Some nodeclient.Connected, None);
     NewBlobV0 := newBlobV0;
     Submit := submit;
     Get := get;
     CreateChatCompletion := fun _ _ => answer |}.

(** The spec's scenario: node endpoint, namespace and prompt, and a
    completion service that answers with the stubbed reply. *)
Definition scenario_args : list string :=
  ["prompt-scavenger"; "http://localhost:26658"; "0102030405060708090a";
   "hello world"].

Definition scenario (key : string) : Env :=
  env scenario_args key (reply "stubbed reply", None).

Definition scenario_namespace : share.Namespace :=
  repeat 0 19 ++ [1; 2; 3; 4; 5; 6; 7; 8; 9; 10].

Definition scenario_blob : blob.Blob :=
  {| blob.Namespace := scenario_namespace;
     blob.Data := bytes_of_string "hello world";
     blob.ShareVersion := 0;
     blob.Commitment := scenario_namespace ++ bytes_of_string "hello world" |}.

(** The scenario against a node that answers every [Get] with a blob of
    other data. *)
Definition other_blob : blob.Blob :=
  {| blob.Namespace := scenario_namespace;
     blob.Data := bytes_of_string "something else";
     blob.ShareVersion := 0;
     blob.Commitment := blob.Commitment scenario_blob |}.

Definition unfaithful : Env :=
  {| Args := scenario_args;
     Getenv := fun name => if String.eqb name "OPENAI_KEY" then "sk-test" else "";
     node := ledger_t;
     NewClient := fun _ _ _ => (Some nodeclient.Connected, None);
     NewBlobV0 := newBlobV0;
     Submit := submit;
     Get := fun _ _ _ _ => (Some other_blob, None);
     CreateChatCompletion := fun _ _ => (reply "stubbed reply", None) |}.

(** The world at the start of a run against a node with no block yet. *)
Definition start (args : list string) (key : string)
    (answer : openai.ChatCompletionResponse * option error)
  : World (env args key answer) :=
  Build_World (env args key answer) [] [].

End ref.

(** ** What the program assumes of its collaborators *)

(** A blob made from a namespace and data carries that namespace and
    those data. *)
Definition NewBlobV0_keeps (E : Env) : Prop :=
  forall ns data b,
    NewBlobV0 E ns data = (Some b, None) ->
    blob.Namespace b = ns /\ blob.Data b = data.

(** [Get] at the height [Submit] returned for a blob, under that blob's
    namespace and commitment, returns a blob with that blob's data. *)
Definition node_keeps (E : Env) : Prop :=
  forall st b gas st' height fetched,
    Submit E st [Some b] gas = (st', (height, None)) ->
    Get E st' height (blob.Namespace b) (blob.Commitment b) = (Some fetched, None) ->
    blob.Data fetched = blob.Data b.

(** ASCII lower case of a byte, and of a string's bytes. *)
Definition lower (c : byte) : byte :=
  if (65 <=? c) && (c <=? 90) then c + 32 else c.

Definition is_hex_digit (c : byte) : bool := hex.reverseHexTable c <=? 15.

Definition ToLower (s : string) : string :=
  string_of_bytes (map lower (bytes_of_string s)).

(** The error [hex.Decode] gives for an input it refuses: the first byte
    that is no hexadecimal digit, or the bad length when all are digits. *)
Definition hex_error_of (src : list byte) : error :=
  match find (fun c => negb (is_hex_digit c)) src with
  | Some b => InvalidByteError b
  | None => ErrLength
  end.

(** The spec's [DecodeError] for the input [s]: the program's wrapping of
    the hex package's error for [s], which names the first byte of [s]
    that is no hexadecimal digit or, when every byte is one, reports the
    odd length.  Nothing else of [s] is in it. *)
Definition DecodeError (s : string) (e : error) : Prop :=
  exists cause,
    e = Errorf1 "error decoding hex string: %w" cause
    /\ cause = hex_error_of (bytes_of_string s)
    /\ ((exists b, cause = InvalidByteError b
                   /\ In b (bytes_of_string s) /\ is_hex_digit b = false)
        \/ (cause = ErrLength
            /\ Nat.odd (String.length s) = true
            /\ forallb is_hex_digit (bytes_of_string s) = true)).

(** The spec's [MissingCredentialError] and [CompletionError]. *)
Definition MissingCredentialError (e : error) : Prop :=
  e = Errorf0 "OPENAI_KEY environment variable not set".

Definition CompletionError (e : error) : Prop :=
  exists cause, e = Errorf1 "ChatCompletion error: %w" cause.

(** The request [gpt3] builds for a message. *)
Definition request_for (msg : string) : openai.ChatCompletionRequest :=
  {| openai.Model := openai.GPT3Dot5Turbo;
     openai.Messages :=
       [ {| openai.Role := openai.ChatMessageRoleUser;
            openai.Content := msg |} ] |}.

(** The positional arguments: [os.Args] without the program's name. *)
Definition positional (E : Env) : list string := tl (Args E).

Definition usage : Event :=
  LogPrint [ArgString "Usage: go run main.go <nodeIP> <namespace> <prompt>"].

(** Case analysis of a run: the program unfolded to its calls, and one
    case split on the next answer it inspects. *)

Ltac unfold_program :=
  unfold run, main, createAndSubmitBlob, log_Fatal, log_Fatalf, log_Printf,
    nodeclient_NewClient, client_Blob_Submit, client_Blob_Get, client_Close,
    defer, bind, ret, emit, os_Exit, panic.

Ltac case_step :=
  match goal with
  | |- context [match ?x with _ => _ end] =>
      lazymatch x with
      | context [match _ with _ => _ end] => fail
      | _ => tryif is_var x then destruct x else destruct x eqn:?
      end
  end.

(** A hex error with its byte in lower case. *)
Definition lower_error (e : error) : error :=
  match e with
  | InvalidByteError b => InvalidByteError (lower b)
  | _ => e
  end.

(** Which collaborator a call goes to. *)
Inductive CallKind : Type := KNewClient | KSubmit | KGet | KCompletion.

Definition calls (tr : list Event) : list CallKind :=
  flat_map (fun ev =>
              match ev with
              | CallNewClient _ _ => [KNewClient]
              | CallSubmit _ _ => [KSubmit]
              | CallGet _ _ _ => [KGet]
              | CallCreateChatCompletion _ _ => [KCompletion]
              | LogPrint _ | LogPrintf _ _ | CallClose => []
              end) tr.

Definition is_log (ev : Event) : bool :=
  match ev with
  | LogPrint _ | LogPrintf _ _ => true
  | _ => false
  end.

Ltac close_case :=
  repeat eexists; repeat split;
  first [ eassumption | reflexivity | (simpl; tauto)
        | (apply String.eqb_eq; eassumption)
        | (apply Z.eqb_neq, negb_true_iff; eassumption) ].

Ltac run_cases :=
  unfold_program; unfold gpt3, client_CreateChatCompletion, bind, ret, panic;
  repeat (case_step; cbn [fst snd ledger trace app exit_status]).

(** How often the client is closed. *)
Definition count_occ_close (tr : list Event) : nat :=
  List.length (filter (fun ev => match ev with CallClose => true | _ => false end) tr).

(** * Properties *)

(** ** Bytes and strings *)

Lemma string_of_bytes_of_string (s : string) :
  string_of_bytes (bytes_of_string s) = s.
Proof.
  unfold string_of_bytes, bytes_of_string.
  rewrite map_map.
  rewrite (map_ext _ (fun a => a)).
  - rewrite map_id. apply string_of_list_ascii_of_string.
  - intros a. rewrite N2Z.id. apply ascii_N_embedding.
Qed.

Lemma length_bytes_of_string (s : string) :
  List.length (bytes_of_string s) = String.length s.
Proof.
  unfold bytes_of_string. rewrite length_map.
  induction s as [|a s IH]; simpl; [reflexivity | now rewrite IH].
Qed.

(** Lists taken two elements at a time, as [hex.Decode] reads them. *)
Lemma pairs_ind {A} (P : list A -> Prop) :
  P [] -> (forall x, P [x]) -> (forall x y l, P l -> P (x :: y :: l)) ->
  forall l, P l.
Proof.
  intros H0 H1 H2 l.
  enough (P l /\ forall x, P (x :: l)) by tauto.
  induction l as [|y l [IHa IHb]]; split; auto.
Qed.

(** ** encoding/hex *)

Lemma reverseHexTable_digit (c : byte) :
  hex.reverseHexTable c <= 15 ->
  (48 <= c <= 57 /\ hex.reverseHexTable c = c - 48)
  \/ (65 <= c <= 70 /\ hex.reverseHexTable c = c - 55)
  \/ (97 <= c <= 102 /\ hex.reverseHexTable c = c - 87).
Proof.
  unfold hex.reverseHexTable.
  destruct ((48 <=? c) && (c <=? 57)) eqn:H1;
    [ apply andb_true_iff in H1; lia | ].
  destruct ((65 <=? c) && (c <=? 70)) eqn:H2;
    [ apply andb_true_iff in H2; lia | ].
  destruct ((97 <=? c) && (c <=? 102)) eqn:H3;
    [ apply andb_true_iff in H3; lia | ].
  lia.
Qed.

Lemma reverseHexTable_nonneg (c : byte) : 0 <= hex.reverseHexTable c.
Proof.
  unfold hex.reverseHexTable.
  destruct ((48 <=? c) && (c <=? 57)) eqn:H1;
    [ apply andb_true_iff in H1; lia | ].
  destruct ((65 <=? c) && (c <=? 70)) eqn:H2;
    [ apply andb_true_iff in H2; lia | ].
  destruct ((97 <=? c) && (c <=? 102)) eqn:H3;
    [ apply andb_true_iff in H3; lia | ].
  lia.
Qed.

Lemma reverseHexTable_lower (c d : byte) :
  hex.reverseHexTable c <= 15 ->
  hex.reverseHexTable c = hex.reverseHexTable d ->
  lower c = lower d.
Proof.
  intros Hc Heq.
  assert (Hd : hex.reverseHexTable d <= 15) by lia.
  apply reverseHexTable_digit in Hc, Hd.
  unfold lower.
  destruct ((65 <=? c) && (c <=? 90)) eqn:Lc;
    [ apply andb_true_iff in Lc | apply andb_false_iff in Lc ];
    (destruct ((65 <=? d) && (d <=? 90)) eqn:Ld;
     [ apply andb_true_iff in Ld | apply andb_false_iff in Ld ]);
    lia.
Qed.

(** Two nibbles packed into a byte: [(a << 4) | b] is [16 a + b]. *)
Lemma pack_nibbles (a b : Z) :
  0 <= a <= 15 -> 0 <= b <= 15 ->
  Z.lor (Z.shiftl a 4) b = 16 * a + b.
Proof.
  intros Ha Hb.
  assert (Ea : a = 0 \/ a = 1 \/ a = 2 \/ a = 3 \/ a = 4 \/ a = 5 \/ a = 6
               \/ a = 7 \/ a = 8 \/ a = 9 \/ a = 10 \/ a = 11 \/ a = 12
               \/ a = 13 \/ a = 14 \/ a = 15) by lia.
  assert (Eb : b = 0 \/ b = 1 \/ b = 2 \/ b = 3 \/ b = 4 \/ b = 5 \/ b = 6
               \/ b = 7 \/ b = 8 \/ b = 9 \/ b = 10 \/ b = 11 \/ b = 12
               \/ b = 13 \/ b = 14 \/ b = 15) by lia.
  repeat (destruct Ea as [-> | Ea]); try subst a;
    repeat (destruct Eb as [-> | Eb]); try subst b; reflexivity.
Qed.

Lemma Decode_pair (p q : byte) (rest : list byte) :
  hex.Decode (p :: q :: rest) =
  if 15 <? hex.reverseHexTable p then ([], Some (InvalidByteError p))
  else if 15 <? hex.reverseHexTable q then ([], Some (InvalidByteError q))
  else (Z.lor (Z.shiftl (hex.reverseHexTable p) 4) (hex.reverseHexTable q)
          :: fst (hex.Decode rest),
        snd (hex.Decode rest)).
Proof.
  simpl. destruct (hex.Decode rest). reflexivity.
Qed.

Lemma is_hex_digit_test (c : byte) :
  (15 <? hex.reverseHexTable c) = negb (is_hex_digit c).
Proof.
  unfold is_hex_digit.
  destruct (Z.ltb_spec 15 (hex.reverseHexTable c)),
           (Z.leb_spec (hex.reverseHexTable c) 15); simpl; lia.
Qed.

(** A successful decoding consumed an even number of hexadecimal digits
    and produced one byte, below 256, for each two of them. *)
Lemma Decode_ok (src dst : list byte) :
  hex.Decode src = (dst, None) ->
  List.length src = (2 * List.length dst)%nat
  /\ forallb is_hex_digit src = true
  /\ Forall (fun b => 0 <= b <= 255) dst.
Proof.
  revert dst. induction src as [|x|p q rest IH] using pairs_ind; intros dst H.
  - inversion H. simpl. auto.
  - simpl in H. destruct (15 <? hex.reverseHexTable x); discriminate.
  - rewrite Decode_pair in H. rewrite !is_hex_digit_test in H.
    destruct (is_hex_digit p) eqn:Hp; cbn [negb] in H; [|discriminate].
    destruct (is_hex_digit q) eqn:Hq; cbn [negb] in H; [|discriminate].
    destruct (hex.Decode rest) as [d e] eqn:Hrest. cbn [fst snd] in H.
    apply pair_equal_spec in H. destruct H as [<- ->].
    destruct (IH d eq_refl) as [Hl [Hh Hr]].
    split; [simpl List.length; lia|].
    split; [simpl; now rewrite Hp, Hq, Hh|].
    apply Forall_cons; [|assumption].
    unfold is_hex_digit in Hp, Hq. apply Z.leb_le in Hp, Hq.
    pose proof (reverseHexTable_nonneg p). pose proof (reverseHexTable_nonneg q).
    rewrite pack_nibbles by lia. lia.
Qed.

(** A failed decoding reports a byte of the input that is no digit, or,
    when all are digits, the odd length. *)
Lemma Decode_error (src dst : list byte) (e : error) :
  hex.Decode src = (dst, Some e) ->
  (exists b, e = InvalidByteError b /\ In b src /\ is_hex_digit b = false)
  \/ (e = ErrLength /\ Nat.odd (List.length src) = true
      /\ forallb is_hex_digit src = true).
Proof.
  revert dst. induction src as [|x|p q rest IH] using pairs_ind; intros dst H.
  - discriminate.
  - simpl in H. rewrite is_hex_digit_test in H.
    destruct (is_hex_digit x) eqn:Hx; simpl in H; inversion H; subst.
    + right. simpl. rewrite Hx. auto.
    + left. exists x. simpl. auto.
  - rewrite Decode_pair in H. rewrite !is_hex_digit_test in H.
    destruct (is_hex_digit p) eqn:Hp; cbn [negb] in H;
      [| inversion H; subst; left; exists p; simpl; auto].
    destruct (is_hex_digit q) eqn:Hq; cbn [negb] in H;
      [| inversion H; subst; left; exists q; simpl; auto].
    destruct (hex.Decode rest) as [d e'] eqn:Hrest. cbn [fst snd] in H.
    inversion H; subst.
    destruct (IH d eq_refl) as [[b [Hb [Hin Hd]]] | [He [Ho Hh]]].
    + left. exists b. simpl. auto.
    + right. change (List.length (p :: q :: rest)) with (S (S (List.length rest))).
      rewrite Nat.odd_succ_succ. simpl. rewrite Hp, Hq, Hh. auto.
Qed.

(** The error is that of the first byte that is no digit, if any. *)
Lemma Decode_error_exact (src dst : list byte) (e : error) :
  hex.Decode src = (dst, Some e) -> e = hex_error_of src.
Proof.
  unfold hex_error_of.
  revert dst. induction src as [|x|p q rest IH] using pairs_ind; intros dst H.
  - discriminate.
  - simpl in H. rewrite is_hex_digit_test in H. cbn [find].
    destruct (is_hex_digit x); cbn [negb] in *; congruence.
  - rewrite Decode_pair in H. rewrite !is_hex_digit_test in H. cbn [find].
    destruct (is_hex_digit p); cbn [negb] in *; [|congruence].
    destruct (is_hex_digit q); cbn [negb] in *; [|congruence].
    destruct (hex.Decode rest) as [d e'] eqn:Hrest. cbn [fst snd] in H.
    apply pair_equal_spec in H. destruct H as [_ ->].
    exact (IH d eq_refl).
Qed.

(** Odd length or a byte that is no digit: the decoding fails. *)
Lemma Decode_fails (src : list byte) :
  Nat.odd (List.length src) = true
  \/ (exists c, In c src /\ is_hex_digit c = false) ->
  exists dst e, hex.Decode src = (dst, Some e).
Proof.
  intros H. destruct (hex.Decode src) as [dst [e|]] eqn:HD; [eauto|].
  exfalso. apply Decode_ok in HD. destruct HD as [Hl [Hh _]].
  destruct H as [Ho | [c [Hin Hc]]].
  - rewrite Hl in Ho. rewrite Nat.odd_mul in Ho. discriminate.
  - rewrite forallb_forall in Hh. rewrite (Hh c Hin) in Hc. discriminate.
Qed.

(** Decoding tells hex strings apart up to the case of their letters. *)
Lemma Decode_inj_lower (src src' dst : list byte) :
  hex.Decode src = (dst, None) -> hex.Decode src' = (dst, None) ->
  map lower src = map lower src'.
Proof.
  revert src' dst.
  induction src as [|x|p q rest IH] using pairs_ind; intros src' dst H H'.
  - inversion H; subst. apply Decode_ok in H'. destruct H' as [Hl _].
    destruct src'; [reflexivity | discriminate].
  - simpl in H. destruct (15 <? hex.reverseHexTable x); discriminate.
  - pose proof (Decode_ok _ _ H) as [Hl _].
    pose proof (Decode_ok _ _ H') as [Hl' _].
    destruct src' as [|p' [|q' rest']];
      [ simpl in *; lia | simpl in *; lia | ].
    rewrite Decode_pair in H, H'. rewrite !is_hex_digit_test in H, H'.
    destruct (is_hex_digit p) eqn:Hp; cbn [negb] in H; [|discriminate].
    destruct (is_hex_digit q) eqn:Hq; cbn [negb] in H; [|discriminate].
    destruct (is_hex_digit p') eqn:Hp'; cbn [negb] in H'; [|discriminate].
    destruct (is_hex_digit q') eqn:Hq'; cbn [negb] in H'; [|discriminate].
    destruct (hex.Decode rest) as [d e] eqn:Hrest.
    destruct (hex.Decode rest') as [d' e'] eqn:Hrest'.
    cbn [fst snd] in H, H'.
    apply pair_equal_spec in H, H'. destruct H as [<- ->]. destruct H' as [H1 ->].
    unfold is_hex_digit in Hp, Hq, Hp', Hq'.
    apply Z.leb_le in Hp, Hq, Hp', Hq'.
    pose proof (reverseHexTable_nonneg p). pose proof (reverseHexTable_nonneg q).
    pose proof (reverseHexTable_nonneg p'). pose proof (reverseHexTable_nonneg q').
    rewrite !pack_nibbles in H1 by lia.
    assert (Hn : 16 * hex.reverseHexTable p' + hex.reverseHexTable q'
                 = 16 * hex.reverseHexTable p + hex.reverseHexTable q)
      by congruence.
    assert (Hd : d' = d) by congruence. subst d'.
    simpl. rewrite (IH rest' d eq_refl Hrest').
    rewrite (reverseHexTable_lower p p') by lia.
    rewrite (reverseHexTable_lower q q') by lia.
    reflexivity.
Qed.

(** ** share: the namespaces [NewBlobNamespaceV0] builds *)

Lemma len_nonneg {A} (l : list A) : 0 <= len l.
Proof. unfold len. lia. Qed.

Lemma Compare_refl (a : list byte) : share.Compare a a = 0.
Proof.
  induction a as [|x a IH]; simpl; [reflexivity|].
  now rewrite Z.ltb_irrefl.
Qed.

Lemma Compare_zeros (m : nat) (a b : list byte) :
  share.Compare (repeat 0 m ++ a) (repeat 0 m ++ b) = share.Compare a b.
Proof.
  induction m as [|m IH]; simpl; [reflexivity | exact IH].
Qed.

(** Against the highest primary reserved value, zeros and then [0xff], a
    byte string of the same length compares lower or equal exactly when
    all its bytes before the last are zero. *)
Lemma Compare_max_reserved (l : list byte) :
  l <> [] -> Forall (fun b => 0 <= b <= 255) l ->
  (share.Compare l (repeat 0 (List.length l - 1) ++ [255]) <? 1)
  = forallb (fun x => x =? 0) (removelast l).
Proof.
  induction l as [|x l IH]; intros Hne Hr; [congruence|].
  inversion Hr as [|? ? Hx Hl]; subst.
  destruct l as [|y l].
  - simpl.
    destruct (Z.ltb_spec x 255); [reflexivity|].
    destruct (Z.ltb_spec 255 x); [lia | reflexivity].
  - change (removelast (x :: y :: l)) with (x :: removelast (y :: l)).
    replace (List.length (x :: y :: l) - 1)%nat
      with (S (List.length (y :: l) - 1)) by (simpl; lia).
    cbn [repeat app share.Compare forallb].
    destruct (Z.ltb_spec x 0); [lia|].
    destruct (Z.ltb_spec 0 x).
    + destruct (Z.eqb_spec x 0); [lia | reflexivity].
    + destruct (Z.eqb_spec x 0); [|lia].
      cbn [andb]. apply IH; [discriminate | assumption].
Qed.

(** What [NewBlobNamespaceV0] builds from an id: the id at the end of
    [NamespaceSize] zero bytes. *)
Lemma padded_valid (id : list byte) :
  1 <= len id <= share.NamespaceVersionZeroIDSize ->
  let n := repeat 0 (Z.to_nat (share.NamespaceSize - len id)) ++ id in
  share.ValidateForData n = None
  /\ share.IsSecondaryReserved n = false
  /\ len n = share.NamespaceSize
  /\ share.Version n = share.NamespaceVersionZero
  /\ share.HasPrefix (share.ID n) share.NamespaceVersionZeroPrefix = true.
Proof.
  intros H.
  destruct id as [|a1 [|a2 [|a3 [|a4 [|a5 [|a6 [|a7 [|a8 [|a9 [|a10 [|a11 id]]]]]]]]]]];
    try (repeat split; reflexivity);
    exfalso; revert H; unfold len; cbn; lia.
Qed.

Lemma padded_reserved (id : list byte) :
  1 <= len id <= share.NamespaceVersionZeroIDSize ->
  Forall (fun b => 0 <= b <= 255) id ->
  share.IsReserved (repeat 0 (Z.to_nat (share.NamespaceSize - len id)) ++ id)
  = forallb (fun x => x =? 0) (removelast id).
Proof.
  intros H Hr.
  unfold share.IsReserved.
  destruct (padded_valid id H) as [_ [-> _]]. rewrite orb_false_r.
  assert (Hne : id <> []) by (intros ->; cbn in H; lia).
  unfold share.IsPrimaryReserved.
  rewrite <- (Compare_max_reserved id Hne Hr).
  rewrite <- (Compare_zeros (Z.to_nat (share.NamespaceSize - len id)) id).
  f_equal. f_equal.
  rewrite app_assoc, <- repeat_app.
  unfold share.MaxPrimaryReservedNamespace, share.primaryReservedNamespace.
  change (share.NamespaceVersionZero
            :: repeat 0 (Z.to_nat (share.NamespaceIDSize - 1)) ++ [255])
    with (repeat 0 28 ++ [255]).
  f_equal. f_equal.
  revert H. unfold len, share.NamespaceVersionZeroIDSize, share.NamespaceSize,
    share.NamespaceVersionSize, share.NamespaceIDSize,
    share.NamespaceVersionZeroPrefixSize.
  lia.
Qed.

(** [NewBlobNamespaceV0] accepts an id exactly when it has 1 to 10 bytes
    and some byte before its last is not zero; the namespace is then the
    id behind zero bytes. *)
Lemma NewBlobNamespaceV0_ok (id : list byte) (n : share.Namespace) :
  Forall (fun b => 0 <= b <= 255) id ->
  (share.NewBlobNamespaceV0 id = (Some n, None) <->
   1 <= len id <= share.NamespaceVersionZeroIDSize
   /\ n = repeat 0 (Z.to_nat (share.NamespaceSize - len id)) ++ id
   /\ forallb (fun x => x =? 0) (removelast id) = false).
Proof.
  intros Hr. unfold share.NewBlobNamespaceV0.
  pose proof (len_nonneg id) as Hpos.
  destruct (Z.eqb_spec (len id) 0) as [H0|H0];
    [ cbn [orb]; split; [discriminate | lia] | ].
  destruct (Z.ltb_spec share.NamespaceVersionZeroIDSize (len id)) as [H1|H1];
    [ cbn [orb]; split; [discriminate | lia] | ].
  cbn [orb].
  assert (H : 1 <= len id <= share.NamespaceVersionZeroIDSize) by lia.
  unfold share.ValidateForBlob.
  destruct (padded_valid id H) as [-> _].
  rewrite (padded_reserved id H Hr).
  destruct (forallb (fun x => x =? 0) (removelast id)); split.
  - discriminate.
  - intros [_ [_ Hf]]. discriminate.
  - intros Heq. apply pair_equal_spec in Heq. destruct Heq as [Heq _].
    injection Heq as <-. auto.
  - intros [_ [-> _]]. reflexivity.
Qed.

(** ** The namespace codec *)

Lemma createNamespaceID_decoded (s : string) (id : list byte) :
  hex.DecodeString s = (id, None) ->
  createNamespaceID s = share.NewBlobNamespaceV0 id.
Proof.
  intros H. unfold createNamespaceID. now rewrite H.
Qed.

Lemma createNamespaceID_ok_decoded (s : string) (n : share.Namespace) :
  createNamespaceID s = (Some n, None) ->
  exists id, hex.DecodeString s = (id, None).
Proof.
  unfold createNamespaceID.
  destruct (hex.DecodeString s) as [id [e|]]; [discriminate | eauto].
Qed.

(** C4, as the code has it. For every input string of odd length or with
    a character that is no hexadecimal digit, [createNamespaceID] returns
    no namespace and a [DecodeError]: the wrapping of the hex package's
    error, which names the first byte of the input that is no hexadecimal
    digit or, when all bytes are digits, only reports the odd length.
    The input string itself is not in the error. *)
Theorem createNamespaceID_bad_hex (s : string) :
  Nat.odd (String.length s) = true
  \/ (exists c, In c (bytes_of_string s) /\ is_hex_digit c = false) ->
  createNamespaceID s
  = (None, Some (Errorf1 "error decoding hex string: %w"
                         (hex_error_of (bytes_of_string s))))
  /\ DecodeError s (Errorf1 "error decoding hex string: %w"
                            (hex_error_of (bytes_of_string s))).
Proof.
  intros H.
  rewrite <- length_bytes_of_string in H.
  destruct (Decode_fails _ H) as [dst [cause HD]].
  rewrite <- (Decode_error_exact _ _ _ HD). split.
  - unfold createNamespaceID, hex.DecodeString. now rewrite HD.
  - exists cause. split; [reflexivity|].
    split; [exact (Decode_error_exact _ _ _ HD)|].
    destruct (Decode_error _ _ _ HD) as [[b [-> Hb]] | [-> [Ho Hh]]].
    + left. eauto.
    + right. rewrite length_bytes_of_string in Ho. auto.
Qed.

Lemma createNamespaceID_bad_hex_witness :
  createNamespaceID "zg"
  = (None, Some (Errorf1 "error decoding hex string: %w" (InvalidByteError 122)))
  /\ createNamespaceID "abc"
     = (None, Some (Errorf1 "error decoding hex string: %w" ErrLength)).
Proof.
  split.
  - apply (createNamespaceID_bad_hex "zg").
    right. exists 103. split; [vm_compute; auto | reflexivity].
  - apply (createNamespaceID_bad_hex "abc"). left. reflexivity.
Defined.

(** C4, as the claim has it, fails: the error does not identify the
    offending input.  Different inputs of odd length give the same error,
    and so do different inputs with the same first bad byte. *)
Lemma createNamespaceID_error_forgets_input :
  ("abc" <> "12345"
   /\ createNamespaceID "abc"
      = (None, Some (Errorf1 "error decoding hex string: %w" ErrLength))
   /\ createNamespaceID "12345"
      = (None, Some (Errorf1 "error decoding hex string: %w" ErrLength)))
  /\ ("zg" <> "0z11"
      /\ createNamespaceID "zg"
         = (None, Some (Errorf1 "error decoding hex string: %w"
                                (InvalidByteError 122)))
      /\ createNamespaceID "0z11"
         = (None, Some (Errorf1 "error decoding hex string: %w"
                                (InvalidByteError 122)))).
Proof.
  repeat split; try discriminate; reflexivity.
Qed.

(** C5. For every hex string that decodes to bytes whose number is
    outside the allowed width of a namespace id (none, or more than
    [NamespaceVersionZeroIDSize]), [createNamespaceID] returns no namespace
    and a [NamespaceFormatError]. *)
Theorem createNamespaceID_bad_width (s : string) (id : list byte) :
  hex.DecodeString s = (id, None) ->
  len id = 0 \/ share.NamespaceVersionZeroIDSize < len id ->
  createNamespaceID s
  = (None, Some (ErrNamespaceIDSize share.NamespaceVersionZeroIDSize (len id)))
  /\ NamespaceFormatError
       (ErrNamespaceIDSize share.NamespaceVersionZeroIDSize (len id)).
Proof.
  intros HD Hw. split.
  - rewrite (createNamespaceID_decoded s id HD).
    unfold share.NewBlobNamespaceV0.
    destruct Hw as [Hw | Hw].
    + rewrite Hw. reflexivity.
    + apply Z.ltb_lt in Hw. rewrite Hw. now rewrite orb_true_r.
  - left. eauto.
Qed.

Lemma createNamespaceID_bad_width_witness :
  createNamespaceID "0102030405060708090a0b" = (None, Some (ErrNamespaceIDSize 10 11))
  /\ createNamespaceID "" = (None, Some (ErrNamespaceIDSize 10 0)).
Proof.
  split.
  - apply (createNamespaceID_bad_width "0102030405060708090a0b"
             [1; 2; 3; 4; 5; 6; 7; 8; 9; 10; 11]).
    + reflexivity.
    + right. reflexivity.
  - apply (createNamespaceID_bad_width "" []).
    + reflexivity.
    + left. reflexivity.
Defined.

(** A namespace comes out of [createNamespaceID] without an error exactly
    when the decoded id has 1 to 10 bytes, not all zero before the last;
    it is the id behind zero bytes. *)
Lemma createNamespaceID_ok (s : string) (n : share.Namespace) :
  createNamespaceID s = (Some n, None) <->
  exists id,
    hex.DecodeString s = (id, None)
    /\ 1 <= len id <= share.NamespaceVersionZeroIDSize
    /\ forallb (fun x => x =? 0) (removelast id) = false
    /\ n = repeat 0 (Z.to_nat (share.NamespaceSize - len id)) ++ id.
Proof.
  split.
  - intros H. destruct (createNamespaceID_ok_decoded s n H) as [id HD].
    exists id. split; [assumption|].
    rewrite (createNamespaceID_decoded s id HD) in H.
    apply Decode_ok in HD. destruct HD as [_ [_ Hr]].
    apply (NewBlobNamespaceV0_ok id n Hr) in H. tauto.
  - intros [id [HD [Hw [Hres Hn]]]].
    rewrite (createNamespaceID_decoded s id HD).
    apply Decode_ok in HD. destruct HD as [_ [_ Hr]].
    apply (NewBlobNamespaceV0_ok id n Hr). auto.
Qed.

(** C10, as the code has it. [createNamespaceID] succeeds with a namespace
    exactly when the hex string decodes to 1 to 10 bytes of which some
    byte before the last is not zero (the namespace is not a reserved
    one); the namespace is then the version-0 namespace of the fixed
    width: [NamespaceSize] bytes, version byte zero, the 18 zero bytes of
    the version-0 prefix, and the decoded bytes at the end behind zero
    padding. *)
Theorem createNamespaceID_accepts (s : string) (n : share.Namespace) :
  createNamespaceID s = (Some n, None) <->
  exists id,
    hex.DecodeString s = (id, None)
    /\ 1 <= len id <= share.NamespaceVersionZeroIDSize
    /\ forallb (fun x => x =? 0) (removelast id) = false
    /\ n = repeat 0 (Z.to_nat (share.NamespaceSize - len id)) ++ id
    /\ len n = share.NamespaceSize
    /\ share.Version n = share.NamespaceVersionZero
    /\ share.HasPrefix (share.ID n) share.NamespaceVersionZeroPrefix = true.
Proof.
  rewrite createNamespaceID_ok. split.
  - intros [id [HD [Hw [Hres ->]]]].
    destruct (padded_valid id Hw) as [_ [_ [Hlen [Hv Hp]]]].
    exists id. auto 8.
  - intros [id [HD [Hw [Hres [Hn _]]]]]. exists id. auto.
Qed.

(** C10, as the claim has it, fails: the empty string decodes to no bytes,
    fewer than the maximum, and is rejected; and of two inputs that decode
    to two bytes each, one is rejected and the other accepted. *)
Lemma createNamespaceID_accepts_not_by_length :
  (hex.DecodeString "" = ([], None)
   /\ len (@nil byte) <= share.NamespaceVersionZeroIDSize
   /\ createNamespaceID "" = (None, Some (ErrNamespaceIDSize 10 0)))
  /\ (len (fst (hex.DecodeString "00ff")) = len (fst (hex.DecodeString "0100"))
      /\ snd (createNamespaceID "00ff")
         = Some (ErrNamespaceInvalid
                   "invalid data namespace: reserved data is forbidden")
      /\ createNamespaceID "0100" = (Some (repeat 0 27 ++ [1; 0]), None)).
Proof.
  repeat split; vm_compute; congruence.
Qed.

(** C2, as the code has it. Two hex strings of the same length that both
    decode to the same namespace are equal up to the case of their
    letters. *)
Theorem createNamespaceID_injective (s s' : string) (n : share.Namespace) :
  createNamespaceID s = (Some n, None) ->
  createNamespaceID s' = (Some n, None) ->
  String.length s = String.length s' ->
  ToLower s = ToLower s'.
Proof.
  intros H H' Hlen.
  apply createNamespaceID_ok in H, H'.
  destruct H as [id [HD [Hw [_ Hn]]]].
  destruct H' as [id' [HD' [Hw' [_ Hn']]]].
  pose proof (Decode_ok _ _ HD) as [Hl _].
  pose proof (Decode_ok _ _ HD') as [Hl' _].
  rewrite length_bytes_of_string in Hl, Hl'.
  assert (Hid : List.length id = List.length id') by lia.
  assert (Elen : len id = len id') by (unfold len; now rewrite Hid).
  rewrite Hn, Elen in Hn'. apply app_inv_head in Hn'. subst id'.
  unfold ToLower. f_equal.
  exact (Decode_inj_lower _ _ _ HD HD').
Qed.

Lemma createNamespaceID_injective_witness :
  ToLower "01ab" = ToLower "01AB".
Proof.
  apply (createNamespaceID_injective "01ab" "01AB" (repeat 0 27 ++ [1; 171]));
    reflexivity.
Defined.

(** C2, as the claim has it, fails: hex digits are read in either case,
    and leading zero bytes are absorbed by the padding. *)
Lemma createNamespaceID_not_injective :
  ("01ab" <> "01AB"
   /\ createNamespaceID "01ab" = (Some (repeat 0 27 ++ [1; 171]), None)
   /\ createNamespaceID "01AB" = (Some (repeat 0 27 ++ [1; 171]), None))
  /\ ("0100" <> "000100"
      /\ createNamespaceID "0100" = (Some (repeat 0 27 ++ [1; 0]), None)
      /\ createNamespaceID "000100" = (Some (repeat 0 27 ++ [1; 0]), None)).
Proof.
  repeat split; try discriminate; reflexivity.
Qed.

(** ** The completion call *)

(** C6. For every prompt text, if [OPENAI_KEY] is unset ([os.Getenv]
    gives the empty string), [gpt3] returns the empty string and a
    [MissingCredentialError] at once: the world is left as it was, so no
    request was sent. *)
Theorem gpt3_missing_credential (E : Env) (msg : string) (w : World E) :
  Getenv E "OPENAI_KEY" = "" ->
  exists e,
    gpt3 E msg w = (Return ("", Some e), w)
    /\ MissingCredentialError e
    /\ filter is_network_call (trace (snd (gpt3 E msg w)))
       = filter is_network_call (trace w).
Proof.
  intros H. exists (Errorf0 "OPENAI_KEY environment variable not set").
  unfold gpt3. rewrite H. cbn. repeat split.
Qed.

Lemma gpt3_missing_credential_witness :
  exists e,
    gpt3 (ref.env [] "" (ref.reply "stubbed reply", None)) "hello world"
         (ref.start [] "" (ref.reply "stubbed reply", None))
    = (Return ("", Some e), ref.start [] "" (ref.reply "stubbed reply", None))
    /\ MissingCredentialError e
    /\ filter is_network_call
         (trace (snd (gpt3 (ref.env [] "" (ref.reply "stubbed reply", None))
                           "hello world"
                           (ref.start [] "" (ref.reply "stubbed reply", None)))))
       = filter is_network_call
           (trace (ref.start [] "" (ref.reply "stubbed reply", None))).
Proof.
  apply (gpt3_missing_credential
           (ref.env [] "" (ref.reply "stubbed reply", None)) "hello world"
           (ref.start [] "" (ref.reply "stubbed reply", None))).
  reflexivity.
Defined.

Lemma gpt3_with_key (E : Env) (msg : string) (w : World E) :
  Getenv E "OPENAI_KEY" <> "" ->
  gpt3 E msg w =
  let w' := {| ledger := ledger w;
               trace := trace w ++ [CallCreateChatCompletion
                                      (Getenv E "OPENAI_KEY") (request_for msg)] |} in
  match CreateChatCompletion E (Getenv E "OPENAI_KEY") (request_for msg) with
  | (_, Some e) => (Return ("", Some (Errorf1 "ChatCompletion error: %w" e)), w')
  | (resp, None) =>
      match openai.Choices resp with
      | [] => (Panic "index out of range [0] with length 0", w')
      | c :: _ => (Return (openai.Content (openai.Message c), None), w')
      end
  end.
Proof.
  intros H. apply String.eqb_neq in H.
  unfold gpt3. rewrite H.
  unfold bind, client_CreateChatCompletion, request_for. cbn.
  destruct (CreateChatCompletion E _ _) as [resp [e|]]; [reflexivity|].
  destruct (openai.Choices resp); reflexivity.
Qed.

(** C7. With the credential set, [gpt3] sends one request, whose only
    message has the role [user] and the given text as content, and when
    the service answers without an error and with a choice, it returns
    the text of the first choice.  In [main] the text is the payload of
    the fetched blob: a run calls the completion service at most once,
    with the data of the blob [Get] returned. *)
Theorem gpt3_request (E : Env) (msg : string) (w : World E) :
  Getenv E "OPENAI_KEY" <> "" ->
  openai.Messages (request_for msg)
  = [ {| openai.Role := openai.ChatMessageRoleUser; openai.Content := msg |} ]
  /\ trace (snd (gpt3 E msg w))
     = trace w ++ [CallCreateChatCompletion (Getenv E "OPENAI_KEY") (request_for msg)]
  /\ (forall resp c cs,
        CreateChatCompletion E (Getenv E "OPENAI_KEY") (request_for msg)
        = (resp, None) ->
        openai.Choices resp = c :: cs ->
        fst (gpt3 E msg w) = Return (openai.Content (openai.Message c), None))
  /\ (forall n,
        filter is_completion_call (snd (run E n)) = []
        \/ exists st height ns c fetched,
             In (CallGet height ns c) (snd (run E n))
             /\ Get E st height ns c = (Some fetched, None)
             /\ filter is_completion_call (snd (run E n))
                = [CallCreateChatCompletion (Getenv E "OPENAI_KEY")
                     (request_for (string_of_bytes (blob.Data fetched)))]).
Proof.
  intros Hkey. split; [reflexivity|].
  split; [|split].
  - rewrite (gpt3_with_key E msg w Hkey). cbv zeta.
    destruct (CreateChatCompletion E _ _) as [resp [e|]]; [reflexivity|].
    destruct (openai.Choices resp); reflexivity.
  - intros resp c cs Hresp Hc.
    rewrite (gpt3_with_key E msg w Hkey). cbv zeta.
    rewrite Hresp, Hc. reflexivity.
  - intros n. apply String.eqb_neq in Hkey.
    unfold_program; unfold gpt3, client_CreateChatCompletion, bind, ret, panic.
    rewrite Hkey.
    repeat (case_step; cbn [fst snd ledger trace app]);
      cbn [filter is_completion_call app];
      try (left; reflexivity).
    all: right; do 5 eexists; (split; [|split; [eassumption|]]);
      first [reflexivity | simpl; tauto].
Qed.

Lemma gpt3_request_witness :
  trace (snd (gpt3 (ref.scenario "sk-test") "hello world"
                   (ref.start ref.scenario_args "sk-test"
                              (ref.reply "stubbed reply", None))))
  = [CallCreateChatCompletion "sk-test" (request_for "hello world")]
  /\ fst (gpt3 (ref.scenario "sk-test") "hello world"
               (ref.start ref.scenario_args "sk-test"
                          (ref.reply "stubbed reply", None)))
     = Return ("stubbed reply", None).
Proof.
  destruct (gpt3_request (ref.scenario "sk-test") "hello world"
              (ref.start ref.scenario_args "sk-test"
                         (ref.reply "stubbed reply", None)))
    as [_ [Ht [Hr _]]].
  - discriminate.
  - split; [exact Ht|].
    exact (Hr _ _ _ eq_refl eq_refl).
Defined.

(** C9. [gpt3] indexes the first choice of an error-free response without
    looking at the number of choices: with no choice the call panics with
    an index out of range, with at least one it returns the first one's
    text, and in neither case does it return an error. *)
Theorem gpt3_no_choice (E : Env) (msg : string) (w : World E)
    (resp : openai.ChatCompletionResponse) :
  Getenv E "OPENAI_KEY" <> "" ->
  CreateChatCompletion E (Getenv E "OPENAI_KEY") (request_for msg) = (resp, None) ->
  (openai.Choices resp = [] ->
   fst (gpt3 E msg w) = Panic "index out of range [0] with length 0")
  /\ (openai.Choices resp <> [] ->
      exists c, hd_error (openai.Choices resp) = Some c
                /\ fst (gpt3 E msg w)
                   = Return (openai.Content (openai.Message c), None))
  /\ (forall text e, fst (gpt3 E msg w) <> Return (text, Some e)).
Proof.
  intros Hkey Hresp.
  rewrite (gpt3_with_key E msg w Hkey). cbv zeta. rewrite Hresp.
  destruct (openai.Choices resp) as [|c cs]; repeat split.
  - congruence.
  - discriminate.
  - discriminate.
  - intros _. exists c. split; reflexivity.
  - discriminate.
Qed.

Lemma gpt3_no_choice_witness :
  fst (gpt3 (ref.env ref.scenario_args "sk-test" ({| openai.Choices := [] |}, None))
            "hello world"
            (ref.start ref.scenario_args "sk-test"
                       ({| openai.Choices := [] |}, None)))
  = Panic "index out of range [0] with length 0".
Proof.
  apply (gpt3_no_choice
           (ref.env ref.scenario_args "sk-test" ({| openai.Choices := [] |}, None))
           "hello world" _ {| openai.Choices := [] |}).
  - discriminate.
  - reflexivity.
  - reflexivity.
Defined.

(** ** The driver *)

(** C8. Whenever the number of positional arguments is not three, the
    run prints the usage line and exits with status 1, and does nothing
    else: no call reaches the node or the completion service. *)
Theorem main_usage (E : Env) (n : node E) :
  len (positional E) <> 3 ->
  run E n = (1, [usage])
  /\ fst (run E n) <> 0
  /\ filter is_network_call (snd (run E n)) = [].
Proof.
  intros H.
  assert (Hrun : run E n = (1, [usage])).
  { unfold run, main.
    replace (len (Args E) =? 4) with false; [reflexivity|].
    symmetry. apply Z.eqb_neq. revert H. unfold positional, len.
    destruct (Args E); simpl List.length; lia. }
  rewrite Hrun. repeat split. discriminate.
Qed.

Lemma main_usage_witness :
  run (ref.env ["prompt-scavenger"; "http://localhost:26658"; "0102"] "sk-test"
               (ref.reply "stubbed reply", None)) []
  = (1, [usage])
  /\ run (ref.env ["prompt-scavenger"; "a"; "b"; "c"; "d"; "e"] "sk-test"
                  (ref.reply "stubbed reply", None)) []
     = (1, [usage]).
Proof.
  split.
  - apply (main_usage (ref.env ["prompt-scavenger"; "http://localhost:26658"; "0102"]
                               "sk-test" (ref.reply "stubbed reply", None))).
    vm_compute. discriminate.
  - apply (main_usage (ref.env ["prompt-scavenger"; "a"; "b"; "c"; "d"; "e"]
                               "sk-test" (ref.reply "stubbed reply", None))).
    vm_compute. discriminate.
Defined.

(** C3, as the code has it. With [OPENAI_KEY] unset a run never ends with
    status 0 and never calls the completion service.  The variable is
    read by the completion step only: once the blob has been fetched, the
    run ends with status 1 on the fatal line that carries the missing
    credential error. *)
Theorem main_missing_credential (E : Env) (n : node E) :
  Getenv E "OPENAI_KEY" = "" ->
  fst (run E n) <> 0
  /\ filter is_completion_call (snd (run E n)) = []
  /\ (forall text,
        In (LogPrintf "Fetched blob: %s\n" [ArgString text]) (snd (run E n)) ->
        fst (run E n) = 1
        /\ last (snd (run E n)) usage
           = LogPrintf "Failed to process message with GPT-3: %v"
               [ArgError (Errorf0 "OPENAI_KEY environment variable not set")]).
Proof.
  intros Hkey.
  unfold_program; unfold gpt3, client_CreateChatCompletion, bind, ret, panic.
  rewrite Hkey. cbn [String.eqb].
  repeat (case_step; cbn [fst snd ledger trace app exit_status]);
    (split; [discriminate | split; [reflexivity|]]);
    intros text Hin; simpl in Hin;
    repeat (destruct Hin as [Hin | Hin]; try discriminate Hin);
    try contradiction.
  split; reflexivity.
Qed.

Lemma main_missing_credential_witness :
  fst (run (ref.scenario "") []) <> 0
  /\ filter is_completion_call (snd (run (ref.scenario "") [])) = [].
Proof.
  destruct (main_missing_credential (ref.scenario "") []) as [H1 [H2 _]].
  - reflexivity.
  - split; assumption.
Defined.

(** C3, as the claim has it, fails: with [OPENAI_KEY] unset the scenario's
    run builds the client, submits the blob and fetches it back before it
    exits. *)
Lemma main_missing_credential_after_network :
  Getenv (ref.scenario "") "OPENAI_KEY" = ""
  /\ fst (run (ref.scenario "") []) = 1
  /\ filter is_network_call (snd (run (ref.scenario "") []))
     = [CallNewClient "http://localhost:26658" "";
        CallSubmit [Some ref.scenario_blob] blob.DefaultGasPrice;
        CallGet 1 ref.scenario_namespace (blob.Commitment ref.scenario_blob)].
Proof.
  repeat split.
Qed.

(** ** The blob round trip *)

Lemma ref_NewBlobV0_keeps (args : list string) (key : string)
    (answer : openai.ChatCompletionResponse * option error) :
  NewBlobV0_keeps (ref.env args key answer).
Proof.
  intros ns data b. cbn [NewBlobV0 ref.env]. unfold ref.newBlobV0.
  destruct (len data =? 0); [discriminate|].
  destruct (share.ValidateForBlob ns); [discriminate|].
  intros H. apply pair_equal_spec in H. destruct H as [H _].
  injection H as <-. split; reflexivity.
Qed.

Lemma ref_node_keeps (args : list string) (key : string)
    (answer : openai.ChatCompletionResponse * option error) :
  node_keeps (ref.env args key answer).
Proof.
  intros st b gas st' height fetched.
  cbn [Submit Get ref.env]. unfold ref.submit, ref.get.
  intros HS. apply pair_equal_spec in HS. destruct HS as [<- HS].
  apply pair_equal_spec in HS. destruct HS as [<- _].
  pose proof (len_nonneg st) as Hpos.
  destruct (Z.ltb_spec (len st + 1) 1) as [Hlt|_]; [lia|].
  replace (Z.to_nat (len st + 1 - 1)) with (List.length st)
    by (unfold len; lia).
  rewrite nth_error_app2 by lia. rewrite Nat.sub_diag.
  cbn [nth_error ref.present flat_map app find].
  unfold ref.matches, ref.bytes_Equal. rewrite !Compare_refl.
  cbn [Z.eqb andb].
  intros H. apply pair_equal_spec in H. destruct H as [H _].
  injection H as <-. reflexivity.
Qed.

(** C1, as the code has it. A run that fetched a blob had decoded its
    namespace argument [N], built one blob from [N] and the bytes of its
    prompt [P], submitted it, and asked the node for the blob at the
    returned height under the same namespace and that blob's commitment.
    The payload it then uses is the string of whatever data the node
    returned: nothing compares the fetched blob with the submitted one.
    That payload is [P], byte for byte, when the returned data are the
    bytes of [P], as they are with a constructor and a node that keep
    what they are given. *)
Theorem blob_roundtrip_by_node (E : Env) (n : node E) (text : string) :
  In (LogPrintf "Fetched blob: %s\n" [ArgString text]) (snd (run E n)) ->
  exists decoded created st height fetched,
    createNamespaceID (nth 2 (Args E) "") = (decoded, None)
    /\ NewBlobV0 E (slice decoded) (bytes_of_string (nth 3 (Args E) ""))
       = (Some created, None)
    /\ Submit E n [Some created] blob.DefaultGasPrice = (st, (height, None))
    /\ Get E st height (slice decoded) (blob.Commitment created)
       = (Some fetched, None)
    /\ text = string_of_bytes (blob.Data fetched)
    /\ (blob.Data fetched = bytes_of_string (nth 3 (Args E) "") ->
        text = nth 3 (Args E) "")
    /\ (NewBlobV0_keeps E -> node_keeps E -> text = nth 3 (Args E) "").
Proof.
  run_cases; intros Hin; simpl in Hin;
    repeat (destruct Hin as [Hin | Hin]; try discriminate Hin);
    try contradiction;
    injection Hin as <-;
    do 5 eexists;
    repeat (split; [first [eassumption | reflexivity]|]);
    (split; [intros ->; apply string_of_bytes_of_string|]);
    intros HB HN;
    match goal with
    | HNew : NewBlobV0 _ _ _ = (Some ?created, None),
      HS : Submit _ _ _ _ = _,
      HG : Get _ _ _ _ _ = _ |- _ =>
        destruct (HB _ _ _ HNew) as [Hns Hdata];
        rewrite <- Hns in HG;
        rewrite (HN _ _ _ _ _ _ HS HG), Hdata
    end;
    apply string_of_bytes_of_string.
Qed.

Lemma blob_roundtrip_by_node_witness :
  exists decoded created st height fetched,
    createNamespaceID (nth 2 (Args (ref.scenario "sk-test")) "") = (decoded, None)
    /\ NewBlobV0 (ref.scenario "sk-test") (slice decoded)
         (bytes_of_string (nth 3 (Args (ref.scenario "sk-test")) ""))
       = (Some created, None)
    /\ Submit (ref.scenario "sk-test") [] [Some created] blob.DefaultGasPrice
       = (st, (height, None))
    /\ Get (ref.scenario "sk-test") st height (slice decoded)
         (blob.Commitment created)
       = (Some fetched, None)
    /\ "hello world" = string_of_bytes (blob.Data fetched)
    /\ (blob.Data fetched
        = bytes_of_string (nth 3 (Args (ref.scenario "sk-test")) "") ->
        "hello world" = nth 3 (Args (ref.scenario "sk-test")) "")
    /\ (NewBlobV0_keeps (ref.scenario "sk-test") ->
        node_keeps (ref.scenario "sk-test") ->
        "hello world" = nth 3 (Args (ref.scenario "sk-test")) "").
Proof.
  apply (blob_roundtrip_by_node (ref.scenario "sk-test") [] "hello world").
  vm_compute. auto 10.
Defined.

(** C1, as the claim has it, fails: against a node that answers the fetch
    with other data, the blob is submitted with the prompt and the fetch
    by the returned height, the same namespace and the returned commitment
    yields a payload that is not the prompt, which the run then uses. *)
Lemma blob_roundtrip_fails_on_node :
  fst (createAndSubmitBlob ref.unfaithful (Some nodeclient.Connected)
         ref.scenario_namespace "hello world"
         (Build_World ref.unfaithful [] []))
  = Return (Some ref.scenario_blob, 1, None)
  /\ fst (client_Blob_Get ref.unfaithful (Some nodeclient.Connected) 1
            ref.scenario_namespace (blob.Commitment ref.scenario_blob)
            (snd (createAndSubmitBlob ref.unfaithful (Some nodeclient.Connected)
                    ref.scenario_namespace "hello world"
                    (Build_World ref.unfaithful [] []))))
     = Return (Some ref.other_blob, None)
  /\ string_of_bytes (blob.Data ref.other_blob) = "something else"
  /\ "something else" <> "hello world"
  /\ In (LogPrintf "Fetched blob: %s\n" [ArgString "something else"])
        (snd (run ref.unfaithful [])).
Proof.
  repeat split; try discriminate. vm_compute. auto 10.
Qed.

(** The spec's end-to-end scenario: the blob is submitted at height 1 and
    fetched back, the completion service receives one user message with
    the prompt, its reply is logged and the status is 0. *)
Example scenario_run :
  run (ref.scenario "sk-test") []
  = (0,
     [CallNewClient "http://localhost:26658" "";
      CallSubmit [Some ref.scenario_blob] blob.DefaultGasPrice;
      LogPrintf "Blob submitted successfully at height: %d! \n" [ArgUint 1];
      LogPrintf "Explorer link: https://arabica.celenium.io/block/%d \n" [ArgUint 1];
      CallGet 1 ref.scenario_namespace (blob.Commitment ref.scenario_blob);
      LogPrintf "Fetched blob: %s\n" [ArgString "hello world"];
      CallCreateChatCompletion "sk-test" (request_for "hello world");
      LogPrintf "GPT-3 response: %s\n" [ArgString "stubbed reply"];
      CallClose]).
Proof. reflexivity. Qed.

(** * Further properties of the code *)

(** ** The namespace codec: which strings it accepts *)

(** An even number of hexadecimal digits always decodes. *)
Lemma Decode_succeeds (src : list byte) :
  Nat.even (List.length src) = true ->
  forallb is_hex_digit src = true ->
  exists dst, hex.Decode src = (dst, None).
Proof.
  induction src as [|x|p q rest IH] using pairs_ind; intros He Hh.
  - exists []. reflexivity.
  - discriminate.
  - cbn [forallb] in Hh. apply andb_true_iff in Hh. destruct Hh as [Hp Hh].
    apply andb_true_iff in Hh. destruct Hh as [Hq Hh].
    destruct (IH He Hh) as [dst Hrest].
    rewrite Decode_pair, !is_hex_digit_test, Hp, Hq, Hrest. cbn [negb fst snd].
    eauto.
Qed.

Lemma reverseHexTable_zero (c : byte) :
  is_hex_digit c = true -> (hex.reverseHexTable c =? 0) = (c =? 48).
Proof.
  unfold is_hex_digit. intros H. apply Z.leb_le in H.
  destruct (reverseHexTable_digit c H) as [[Hr ->] | [[Hr ->] | [Hr ->]]];
    destruct (Z.eqb_spec c 48); lia.
Qed.

(** The decoded bytes before the last are all zero exactly when the
    characters before the last two are all ['0']. *)
Lemma Decode_zero_prefix (src dst : list byte) :
  hex.Decode src = (dst, None) ->
  forallb (fun x => x =? 0) (removelast dst)
  = forallb (fun c => c =? 48) (firstn (List.length src - 2) src).
Proof.
  revert dst. induction src as [|x|p q rest IH] using pairs_ind; intros dst H.
  - apply pair_equal_spec in H. destruct H as [<- _]. reflexivity.
  - simpl in H. destruct (15 <? hex.reverseHexTable x); discriminate.
  - pose proof (Decode_ok _ _ H) as [_ [Hh _]].
    cbn [forallb] in Hh. apply andb_true_iff in Hh. destruct Hh as [Hp Hh].
    apply andb_true_iff in Hh. destruct Hh as [Hq _].
    rewrite Decode_pair, !is_hex_digit_test, Hp, Hq in H. cbn [negb] in H.
    destruct (hex.Decode rest) as [d e] eqn:Hrest. cbn [fst snd] in H.
    apply pair_equal_spec in H. destruct H as [<- ->].
    pose proof (Decode_ok _ _ Hrest) as [Hl _].
    specialize (IH d eq_refl).
    destruct d as [|y d].
    + destruct rest; [reflexivity | discriminate].
    + change (removelast (?b :: y :: d)) with (b :: removelast (y :: d)).
      destruct rest as [|p' [|q' rest']]; [discriminate | simpl in Hl; lia |].
      replace (List.length (p :: q :: p' :: q' :: rest') - 2)%nat
        with (S (S (List.length (p' :: q' :: rest') - 2))) by (simpl; lia).
      cbn [firstn forallb]. rewrite IH.
      rewrite andb_assoc. f_equal.
      pose proof Hp as Hp'. pose proof Hq as Hq'.
      unfold is_hex_digit in Hp', Hq'. apply Z.leb_le in Hp', Hq'.
      pose proof (reverseHexTable_nonneg p). pose proof (reverseHexTable_nonneg q).
      rewrite pack_nibbles by lia.
      rewrite <- (reverseHexTable_zero p Hp), <- (reverseHexTable_zero q Hq).
      destruct (Z.eqb_spec (hex.reverseHexTable p) 0),
               (Z.eqb_spec (hex.reverseHexTable q) 0),
               (Z.eqb_spec (16 * hex.reverseHexTable p + hex.reverseHexTable q) 0);
        cbn [andb]; lia.
Qed.

(** X1. [createNamespaceID] has four outcomes and no other: a namespace and
    no error; no namespace and the wrapped hex error; no namespace and the
    size error of an id of no or more than ten bytes; or, for an id of one
    to ten bytes that is zero before its last byte, the padded namespace
    together with the error that refuses it as reserved.  It never returns
    neither a namespace nor an error. *)
Theorem createNamespaceID_outcomes (s : string) :
  (exists n, createNamespaceID s = (Some n, None))
  \/ (exists e, createNamespaceID s = (None, Some e) /\ DecodeError s e)
  \/ (exists id,
        hex.DecodeString s = (id, None)
        /\ (len id = 0 \/ share.NamespaceVersionZeroIDSize < len id)
        /\ createNamespaceID s
           = (None, Some (ErrNamespaceIDSize share.NamespaceVersionZeroIDSize (len id))))
  \/ (exists id,
        hex.DecodeString s = (id, None)
        /\ 1 <= len id <= share.NamespaceVersionZeroIDSize
        /\ forallb (fun x => x =? 0) (removelast id) = true
        /\ createNamespaceID s
           = (Some (repeat 0 (Z.to_nat (share.NamespaceSize - len id)) ++ id),
              Some (ErrNamespaceInvalid
                      "invalid data namespace: reserved data is forbidden"))).
Proof.
  destruct (hex.DecodeString s) as [id [cause|]] eqn:HD.
  - right. left. exists (Errorf1 "error decoding hex string: %w" cause). split.
    + unfold createNamespaceID. now rewrite HD.
    + exists cause. split; [reflexivity|].
      split; [exact (Decode_error_exact _ _ _ HD)|].
      destruct (Decode_error _ _ _ HD) as [[b [-> Hb]] | [-> [Ho Hh]]].
      * left. eauto.
      * right. rewrite length_bytes_of_string in Ho. auto.
  - rewrite (createNamespaceID_decoded s id HD).
    pose proof (len_nonneg id) as Hpos.
    pose proof (Decode_ok _ _ HD) as [_ [_ Hr]].
    unfold share.NewBlobNamespaceV0.
    destruct (Z.eqb_spec (len id) 0) as [H0|H0].
    { right. right. left. exists id. cbn [orb]. auto. }
    destruct (Z.ltb_spec share.NamespaceVersionZeroIDSize (len id)) as [H1|H1].
    { right. right. left. exists id. cbn [orb]. auto. }
    cbn [orb].
    assert (H : 1 <= len id <= share.NamespaceVersionZeroIDSize) by lia.
    unfold share.ValidateForBlob.
    destruct (padded_valid id H) as [-> _].
    rewrite (padded_reserved id H Hr).
    destruct (forallb (fun x => x =? 0) (removelast id)) eqn:Hres.
    + right. right. right. exists id. auto.
    + left. eauto.
Qed.

(** X2. Which strings [createNamespaceID] accepts, read off the string
    alone: those of 2 to 20 characters, an even number of them, all
    hexadecimal digits, with a character other than ['0'] before the last
    two. *)
Theorem createNamespaceID_accepts_string (s : string) :
  (exists n, createNamespaceID s = (Some n, None)) <->
  forallb is_hex_digit (bytes_of_string s) = true
  /\ Nat.even (String.length s) = true
  /\ (2 <= String.length s <= 20)%nat
  /\ forallb (fun c => c =? 48)
       (firstn (String.length s - 2) (bytes_of_string s)) = false.
Proof.
  rewrite <- length_bytes_of_string.
  split.
  - intros [n H]. apply createNamespaceID_ok in H.
    destruct H as [id [HD [Hw [Hres _]]]].
    pose proof (Decode_ok _ _ HD) as [Hl [Hh _]].
    rewrite <- (Decode_zero_prefix _ _ HD).
    repeat split; try assumption.
    + rewrite Hl. rewrite Nat.even_mul. reflexivity.
    + revert Hw. unfold len. cbn. lia.
    + revert Hw. unfold len. cbn. lia.
  - intros [Hh [He [Hlen Hz]]].
    destruct (Decode_succeeds _ He Hh) as [id HD].
    pose proof (Decode_ok _ _ HD) as [Hl _].
    exists (repeat 0 (Z.to_nat (share.NamespaceSize - len id)) ++ id).
    apply createNamespaceID_ok. exists id.
    rewrite (Decode_zero_prefix _ _ HD).
    repeat split; try assumption; unfold len; cbn; lia.
Qed.

(** ** The namespace codec: letter case and leading zeros *)

Lemma bytes_of_string_range (s : string) :
  Forall (fun b => 0 <= b < 256) (bytes_of_string s).
Proof.
  unfold bytes_of_string. apply Forall_forall. intros c Hc.
  apply in_map_iff in Hc. destruct Hc as [a [<- _]].
  pose proof (N_ascii_bounded a). lia.
Qed.

Lemma bytes_of_string_of_bytes (b : list byte) :
  Forall (fun x => 0 <= x < 256) b ->
  bytes_of_string (string_of_bytes b) = b.
Proof.
  intros H. unfold bytes_of_string, string_of_bytes.
  rewrite list_ascii_of_string_of_list_ascii, map_map.
  induction H as [|x l Hx Hl IH]; [reflexivity|].
  cbn [map]. rewrite IH. f_equal.
  rewrite N_ascii_embedding by lia. lia.
Qed.

Lemma lower_range (c : byte) : 0 <= c < 256 -> 0 <= lower c < 256.
Proof.
  unfold lower. intros H.
  destruct ((65 <=? c) && (c <=? 90)) eqn:L; [|assumption].
  apply andb_true_iff in L. lia.
Qed.

Lemma bytes_of_ToLower (s : string) :
  bytes_of_string (ToLower s) = map lower (bytes_of_string s).
Proof.
  unfold ToLower. apply bytes_of_string_of_bytes.
  apply Forall_forall. intros c Hc.
  apply in_map_iff in Hc. destruct Hc as [x [<- Hx]].
  apply lower_range.
  exact (proj1 (Forall_forall _ _) (bytes_of_string_range s) x Hx).
Qed.

(** A letter has the digit value of its lower case. *)
Lemma reverseHexTable_of_lower (c : byte) :
  hex.reverseHexTable (lower c) = hex.reverseHexTable c.
Proof.
  unfold lower.
  destruct ((65 <=? c) && (c <=? 90)) eqn:L; [|reflexivity].
  apply andb_true_iff in L. unfold hex.reverseHexTable.
  destruct ((48 <=? c + 32) && (c + 32 <=? 57)) eqn:A1;
    [apply andb_true_iff in A1; lia|].
  destruct ((65 <=? c + 32) && (c + 32 <=? 70)) eqn:A2;
    [apply andb_true_iff in A2; lia|].
  destruct ((48 <=? c) && (c <=? 57)) eqn:B1;
    [apply andb_true_iff in B1; lia|].
  destruct ((65 <=? c) && (c <=? 70)) eqn:B2;
    [apply andb_true_iff in B2 | apply andb_false_iff in B2].
  - replace ((97 <=? c + 32) && (c + 32 <=? 102)) with true; [lia|].
    symmetry. apply andb_true_iff. lia.
  - replace ((97 <=? c + 32) && (c + 32 <=? 102)) with false.
    + replace ((97 <=? c) && (c <=? 102)) with false; [reflexivity|].
      symmetry. apply andb_false_iff. lia.
    + symmetry. apply andb_false_iff. lia.
Qed.

(** Lower-casing the input changes nothing of the decoding but the case
    of the byte an error names. *)
Lemma Decode_lower (src : list byte) :
  hex.Decode (map lower src)
  = (fst (hex.Decode src), option_map lower_error (snd (hex.Decode src))).
Proof.
  induction src as [|x|p q rest IH] using pairs_ind.
  - reflexivity.
  - cbn [map hex.Decode]. rewrite reverseHexTable_of_lower.
    destruct (15 <? hex.reverseHexTable x); reflexivity.
  - cbn [map]. rewrite !Decode_pair, !reverseHexTable_of_lower, IH.
    destruct (15 <? hex.reverseHexTable p); [reflexivity|].
    destruct (15 <? hex.reverseHexTable q); reflexivity.
Qed.

Lemma Decode_lower_ok (src dst : list byte) :
  hex.Decode (map lower src) = (dst, None) <-> hex.Decode src = (dst, None).
Proof.
  rewrite Decode_lower.
  destruct (hex.Decode src) as [d [e|]]; cbn [fst snd option_map];
    split; intros H; try discriminate; assumption.
Qed.

(** X3. [createNamespaceID] does not see the case of the letters: a
    string yields a namespace exactly when its lower-case form yields that
    namespace. *)
Theorem createNamespaceID_case (s : string) (n : share.Namespace) :
  createNamespaceID (ToLower s) = (Some n, None)
  <-> createNamespaceID s = (Some n, None).
Proof.
  rewrite !createNamespaceID_ok.
  unfold hex.DecodeString. rewrite bytes_of_ToLower.
  split; intros [id [HD H]]; exists id; (split; [|exact H]);
    apply Decode_lower_ok; exact HD.
Qed.

Lemma Decode_zero_byte (src dst : list byte) :
  hex.Decode src = (dst, None) ->
  hex.Decode (48 :: 48 :: src) = (0 :: dst, None).
Proof.
  intros H. rewrite Decode_pair, H. reflexivity.
Qed.

(** X4. A leading zero byte is absorbed by the padding: when a string of
    fewer than 20 characters yields a namespace, the string with ["00"]
    put before it yields the same namespace. *)
Theorem createNamespaceID_leading_zero (s : string) (n : share.Namespace) :
  createNamespaceID s = (Some n, None) ->
  (String.length s < 20)%nat ->
  createNamespaceID ("00" ++ s) = (Some n, None).
Proof.
  intros H Hlen. apply createNamespaceID_ok in H.
  destruct H as [id [HD [Hw [Hres ->]]]].
  pose proof (Decode_ok _ _ HD) as [Hl _].
  rewrite length_bytes_of_string in Hl.
  apply createNamespaceID_ok. exists (0 :: id).
  assert (Hne : id <> []) by (intros ->; cbn in Hw; lia).
  split; [|split; [|split]].
  - exact (Decode_zero_byte _ _ HD).
  - revert Hw. unfold len. cbn. lia.
  - destruct id as [|y id]; [congruence|].
    change (removelast (0 :: y :: id)) with (0 :: removelast (y :: id)).
    cbn [forallb Z.eqb andb]. exact Hres.
  - replace (Z.to_nat (share.NamespaceSize - len id))
      with (S (Z.to_nat (share.NamespaceSize - len (0 :: id))))
      by (revert Hw;
          unfold len, share.NamespaceVersionZeroIDSize, share.NamespaceSize,
            share.NamespaceVersionSize, share.NamespaceIDSize,
            share.NamespaceVersionZeroPrefixSize, byte;
          cbn [List.length]; lia).
    cbn [repeat]. rewrite repeat_cons, <- app_assoc. reflexivity.
Qed.

Lemma createNamespaceID_leading_zero_witness :
  createNamespaceID "000100" = (Some (repeat 0 27 ++ [1; 0]), None).
Proof.
  apply (createNamespaceID_leading_zero "0100").
  - reflexivity.
  - cbn. lia.
Defined.

(** ** [createAndSubmitBlob] and [gpt3]: what they do to the world *)

(** X5. [createAndSubmitBlob] always returns (it neither exits nor
    panics).  When the blob cannot be built the world is untouched and
    nothing is submitted.  Otherwise exactly that one blob is submitted
    with the default gas price; a failed submission is followed by no log
    line, a successful one by the two lines that carry the returned
    height.  An error comes with no blob and height 0, and without an
    error the returned blob is the submitted one. *)
Theorem createAndSubmitBlob_effects (E : Env) (client : nodeclient.Client)
    (ns : share.Namespace) (payload : string) (w : World E) :
  exists created height err w' evs,
    createAndSubmitBlob E (Some client) ns payload w
    = (Return (created, height, err), w')
    /\ trace w' = trace w ++ evs
    /\ (err <> None -> created = None /\ height = 0 /\ filter is_log evs = [])
    /\ (snd (NewBlobV0 E ns (bytes_of_string payload)) <> None ->
        w' = w /\ evs = [])
    /\ (snd (NewBlobV0 E ns (bytes_of_string payload)) = None ->
        filter is_network_call evs
        = [CallSubmit [fst (NewBlobV0 E ns (bytes_of_string payload))]
                      blob.DefaultGasPrice])
    /\ (err = None ->
        created = fst (NewBlobV0 E ns (bytes_of_string payload))
        /\ Submit E (ledger w) [created] blob.DefaultGasPrice
           = (ledger w', (height, None))
        /\ evs = [CallSubmit [created] blob.DefaultGasPrice;
                  LogPrintf "Blob submitted successfully at height: %d! \n"
                            [ArgUint height];
                  LogPrintf "Explorer link: https://arabica.celenium.io/block/%d \n"
                            [ArgUint height]]).
Proof.
  unfold createAndSubmitBlob, log_Printf, client_Blob_Submit, bind, ret, emit.
  destruct (NewBlobV0 E ns (bytes_of_string payload)) as [cb [e|]] eqn:HNew.
  - exists None, 0, (Some (Errorf1 "Failed to create blob: %w" e)), w, [].
    cbn [fst snd]. rewrite app_nil_r.
    repeat split; try reflexivity; try discriminate; congruence.
  - destruct (Submit E (ledger w) [cb] blob.DefaultGasPrice)
      as [st [h [e|]]] eqn:HS; do 5 eexists; cbn [fst snd ledger trace];
      (split; [reflexivity|]); (split; [rewrite <- ?app_assoc; reflexivity|]);
      cbn [filter is_log is_network_call app];
      repeat split; try reflexivity; try discriminate; try congruence;
      try exact HS.
Qed.

(** X6. With the credential set, a fault of the completion service makes
    [gpt3] return the empty string and a [CompletionError] that wraps the
    fault, after its single request. *)
Theorem gpt3_service_error (E : Env) (msg : string) (w : World E)
    (resp : openai.ChatCompletionResponse) (e : error) :
  Getenv E "OPENAI_KEY" <> "" ->
  CreateChatCompletion E (Getenv E "OPENAI_KEY") (request_for msg) = (resp, Some e) ->
  fst (gpt3 E msg w) = Return ("", Some (Errorf1 "ChatCompletion error: %w" e))
  /\ CompletionError (Errorf1 "ChatCompletion error: %w" e)
  /\ trace (snd (gpt3 E msg w))
     = trace w ++ [CallCreateChatCompletion (Getenv E "OPENAI_KEY") (request_for msg)].
Proof.
  intros Hkey Hresp.
  rewrite (gpt3_with_key E msg w Hkey). cbv zeta. rewrite Hresp.
  repeat split. exists e. reflexivity.
Qed.

Lemma gpt3_service_error_witness :
  fst (gpt3 (ref.env ref.scenario_args "sk-test"
                     (ref.reply "", Some (ErrRemote "rate limit reached")))
            "hello world"
            (ref.start ref.scenario_args "sk-test"
                       (ref.reply "", Some (ErrRemote "rate limit reached"))))
  = Return ("", Some (Errorf1 "ChatCompletion error: %w"
                              (ErrRemote "rate limit reached"))).
Proof.
  apply (gpt3_service_error
           (ref.env ref.scenario_args "sk-test"
                    (ref.reply "", Some (ErrRemote "rate limit reached")))
           "hello world" _ (ref.reply "")).
  - discriminate.
  - reflexivity.
Defined.

(** X7. Whatever the environment, [gpt3] never exits the process, never
    touches the node's ledger, writes no log line, and adds to the trace
    either nothing or its one request to the completion service; it adds
    nothing exactly when the credential is unset. *)
Theorem gpt3_frame (E : Env) (msg : string) (w : World E) :
  (forall code, fst (gpt3 E msg w) <> Exit code)
  /\ ledger (snd (gpt3 E msg w)) = ledger w
  /\ (if String.eqb (Getenv E "OPENAI_KEY") ""
      then trace (snd (gpt3 E msg w)) = trace w
      else trace (snd (gpt3 E msg w))
           = trace w ++ [CallCreateChatCompletion (Getenv E "OPENAI_KEY")
                           (request_for msg)]).
Proof.
  destruct (String.eqb (Getenv E "OPENAI_KEY") "") eqn:Hk.
  - unfold gpt3. rewrite Hk. cbn. repeat split. discriminate.
  - apply String.eqb_neq in Hk.
    rewrite (gpt3_with_key E msg w Hk). cbv zeta.
    destruct (CreateChatCompletion E _ _) as [resp [e|]];
      [ cbn; repeat split; discriminate | ].
    destruct (openai.Choices resp); cbn; repeat split; discriminate.
Qed.

(** ** The driver: every run *)

(** X8. Status 0 means every step went through: four arguments, a client,
    a decoded namespace, a blob built from the prompt, its submission, the
    fetch of a blob by the returned height and the created blob's
    commitment, a set credential and an answer with a choice; and the run
    did exactly these nine things, in this order, the last being the
    closing of the client. *)
Theorem main_success (E : Env) (n : node E) :
  fst (run E n) = 0 ->
  exists client ns created st height fetched resp c cs,
    len (Args E) = 4
    /\ NewClient E n (nth 1 (Args E) "") "" = (Some client, None)
    /\ createNamespaceID (nth 2 (Args E) "") = (ns, None)
    /\ NewBlobV0 E (slice ns) (bytes_of_string (nth 3 (Args E) ""))
       = (Some created, None)
    /\ Submit E n [Some created] blob.DefaultGasPrice = (st, (height, None))
    /\ Get E st height (slice ns) (blob.Commitment created) = (Some fetched, None)
    /\ Getenv E "OPENAI_KEY" <> ""
    /\ CreateChatCompletion E (Getenv E "OPENAI_KEY")
         (request_for (string_of_bytes (blob.Data fetched))) = (resp, None)
    /\ openai.Choices resp = c :: cs
    /\ snd (run E n)
       = [CallNewClient (nth 1 (Args E) "") "";
          CallSubmit [Some created] blob.DefaultGasPrice;
          LogPrintf "Blob submitted successfully at height: %d! \n" [ArgUint height];
          LogPrintf "Explorer link: https://arabica.celenium.io/block/%d \n"
                    [ArgUint height];
          CallGet height (slice ns) (blob.Commitment created);
          LogPrintf "Fetched blob: %s\n"
                    [ArgString (string_of_bytes (blob.Data fetched))];
          CallCreateChatCompletion (Getenv E "OPENAI_KEY")
            (request_for (string_of_bytes (blob.Data fetched)));
          LogPrintf "GPT-3 response: %s\n"
                    [ArgString (openai.Content (openai.Message c))];
          CallClose].
Proof.
  run_cases; intros H; try discriminate H.
  match goal with
  | Hn : negb (len _ =? 4) = false |- _ => apply negb_false_iff, Z.eqb_eq in Hn
  end.
  match goal with
  | Hk : String.eqb _ "" = false |- _ => apply String.eqb_neq in Hk
  end.
  do 9 eexists.
  repeat (split; [first [eassumption | reflexivity]|]).
  reflexivity.
Qed.

Lemma main_success_witness :
  exists client ns created st height fetched resp c cs,
    len (Args (ref.scenario "sk-test")) = 4
    /\ NewClient (ref.scenario "sk-test") []
         (nth 1 (Args (ref.scenario "sk-test")) "") "" = (Some client, None)
    /\ createNamespaceID (nth 2 (Args (ref.scenario "sk-test")) "") = (ns, None)
    /\ NewBlobV0 (ref.scenario "sk-test") (slice ns)
         (bytes_of_string (nth 3 (Args (ref.scenario "sk-test")) ""))
       = (Some created, None)
    /\ Submit (ref.scenario "sk-test") [] [Some created] blob.DefaultGasPrice
       = (st, (height, None))
    /\ Get (ref.scenario "sk-test") st height (slice ns) (blob.Commitment created)
       = (Some fetched, None)
    /\ Getenv (ref.scenario "sk-test") "OPENAI_KEY" <> ""
    /\ CreateChatCompletion (ref.scenario "sk-test")
         (Getenv (ref.scenario "sk-test") "OPENAI_KEY")
         (request_for (string_of_bytes (blob.Data fetched))) = (resp, None)
    /\ openai.Choices resp = c :: cs
    /\ snd (run (ref.scenario "sk-test") [])
       = [CallNewClient (nth 1 (Args (ref.scenario "sk-test")) "") "";
          CallSubmit [Some created] blob.DefaultGasPrice;
          LogPrintf "Blob submitted successfully at height: %d! \n" [ArgUint height];
          LogPrintf "Explorer link: https://arabica.celenium.io/block/%d \n"
                    [ArgUint height];
          CallGet height (slice ns) (blob.Commitment created);
          LogPrintf "Fetched blob: %s\n"
                    [ArgString (string_of_bytes (blob.Data fetched))];
          CallCreateChatCompletion (Getenv (ref.scenario "sk-test") "OPENAI_KEY")
            (request_for (string_of_bytes (blob.Data fetched)));
          LogPrintf "GPT-3 response: %s\n"
                    [ArgString (openai.Content (openai.Message c))];
          CallClose].
Proof.
  apply (main_success (ref.scenario "sk-test") []). reflexivity.
Defined.

(** X9. A run ends with status 0, 1 or 2.  The client is closed exactly
    when the run does not end with status 1: a fatal exit leaves the
    deferred close undone, while a return or a panic runs it as the last
    thing the process does. *)
Theorem main_close (E : Env) (n : node E) :
  (fst (run E n) = 0 \/ fst (run E n) = 1 \/ fst (run E n) = 2)
  /\ (fst (run E n) = 1 -> ~ In CallClose (snd (run E n)))
  /\ (fst (run E n) <> 1 ->
      last (snd (run E n)) usage = CallClose
      /\ count_occ_close (snd (run E n)) = 1%nat).
Proof.
  run_cases; (split; [auto|]); split; intros H; try discriminate H;
    try (exfalso; apply H; reflexivity);
    try (split; reflexivity);
    simpl; intuition discriminate.
Qed.

(** X10. The calls of a run are an initial part of one fixed sequence:
    the client is built, the blob submitted, the blob fetched, the
    completion requested.  No call is repeated, none is made out of this
    order, and a later one is never made without the earlier ones. *)
Theorem main_call_order (E : Env) (n : node E) :
  exists k, calls (snd (run E n))
            = firstn k [KNewClient; KSubmit; KGet; KCompletion].
Proof.
  run_cases; cbn [calls flat_map app];
    first [ exists 0%nat; reflexivity | exists 1%nat; reflexivity
          | exists 2%nat; reflexivity | exists 3%nat; reflexivity
          | exists 4%nat; reflexivity ].
Qed.

(** X11. When the namespace argument does not decode without an error,
    the run ends with status 1 and no blob is built, submitted or fetched
    and no completion is requested: the only call a run can have made is
    the construction of the client. *)
Theorem main_bad_namespace (E : Env) (n : node E) :
  snd (createNamespaceID (nth 2 (Args E) "")) <> None ->
  fst (run E n) = 1
  /\ (calls (snd (run E n)) = [] \/ calls (snd (run E n)) = [KNewClient]).
Proof.
  run_cases; cbn [calls flat_map app]; intros H;
    try (exfalso; apply H; reflexivity); auto.
Qed.

Lemma main_bad_namespace_witness :
  fst (run (ref.env ["prompt-scavenger"; "http://localhost:26658"; "0g"; "hello world"]
                    "sk-test" (ref.reply "stubbed reply", None)) []) = 1
  /\ (calls (snd (run (ref.env ["prompt-scavenger"; "http://localhost:26658"; "0g";
                                "hello world"]
                               "sk-test" (ref.reply "stubbed reply", None)) [])) = []
      \/ calls (snd (run (ref.env ["prompt-scavenger"; "http://localhost:26658"; "0g";
                                   "hello world"]
                                  "sk-test" (ref.reply "stubbed reply", None)) []))
         = [KNewClient]).
Proof.
  apply (main_bad_namespace
           (ref.env ["prompt-scavenger"; "http://localhost:26658"; "0g"; "hello world"]
                    "sk-test" (ref.reply "stubbed reply", None)) []).
  vm_compute. discriminate.
Defined.

(** X12. A run panics only on an answer that breaks its collaborator's
    convention.  If the client constructor, the blob constructor and [Get]
    never return a nil result with a nil error, and the completion service
    never answers without an error and without a choice, every run ends
    with status 0 or 1. *)
Theorem main_no_panic (E : Env) (n : node E) :
  (forall st addr token, NewClient E st addr token <> (None, None)) ->
  (forall ns data, NewBlobV0 E ns data <> (None, None)) ->
  (forall st height ns c, Get E st height ns c <> (None, None)) ->
  (forall key req resp,
      CreateChatCompletion E key req = (resp, None) -> openai.Choices resp <> []) ->
  fst (run E n) = 0 \/ fst (run E n) = 1.
Proof.
  intros HN HB HG HC. run_cases; auto; exfalso;
    first [ eapply HC; eassumption | eapply HG; eassumption
          | eapply HB; eassumption | eapply HN; eassumption ].
Qed.

(** A client that is nil without an error makes the run panic where it
    first calls through it, once a blob has been built. *)
Lemma main_nil_client (E : Env) (n : node E) (created : option blob.Blob)
    (decoded : option share.Namespace) :
  len (Args E) = 4 ->
  NewClient E n (nth 1 (Args E) "") "" = (None, None) ->
  createNamespaceID (nth 2 (Args E) "") = (decoded, None) ->
  NewBlobV0 E (slice decoded) (bytes_of_string (nth 3 (Args E) "")) = (created, None) ->
  run E n = (2, [CallNewClient (nth 1 (Args E) "") ""; CallClose]).
Proof.
  intros HA HN HD HB.
  unfold_program. rewrite HA. cbn [Z.eqb Pos.eqb negb ledger trace app].
  rewrite HN, HD, HB. reflexivity.
Qed.

Lemma ref_newBlobV0_not_nil (ns : share.Namespace) (data : list byte) :
  ref.newBlobV0 ns data <> (None, None).
Proof.
  unfold ref.newBlobV0.
  destruct (len data =? 0); [discriminate|].
  destruct (share.ValidateForBlob ns); discriminate.
Qed.

Lemma ref_get_not_nil (st : ref.ledger_t) (height : Z) (ns : share.Namespace)
    (c : blob.commitment) :
  ref.get st height ns c <> (None, None).
Proof.
  unfold ref.get.
  destruct (height <? 1); [discriminate|].
  destruct (nth_error st (Z.to_nat (height - 1))); [|discriminate].
  destruct (find (ref.matches ns c) l); discriminate.
Qed.

Lemma main_no_panic_witness :
  fst (run (ref.scenario "sk-test") []) = 0
  \/ fst (run (ref.scenario "sk-test") []) = 1.
Proof.
  apply (main_no_panic (ref.scenario "sk-test") []).
  - discriminate.
  - exact ref_newBlobV0_not_nil.
  - exact ref_get_not_nil.
  - intros key req resp H. cbn in H.
    apply pair_equal_spec in H. destruct H as [<- _]. discriminate.
Defined.

(** X13. What a run hands to its collaborators comes from its arguments
    and from their own answers: the client is built for the first argument
    with an empty token; what is submitted is the one blob built from the
    decoded second argument and the bytes of the third, at the default gas
    price; and what is fetched is asked for by the height that submission
    returned, the same namespace and the built blob's commitment. *)
Theorem main_inputs (E : Env) (n : node E) :
  (forall addr token,
      In (CallNewClient addr token) (snd (run E n)) ->
      addr = nth 1 (Args E) "" /\ token = "")
  /\ (forall blobs gas,
        In (CallSubmit blobs gas) (snd (run E n)) ->
        gas = blob.DefaultGasPrice
        /\ exists ns,
             createNamespaceID (nth 2 (Args E) "") = (ns, None)
             /\ blobs = [fst (NewBlobV0 E (slice ns)
                                (bytes_of_string (nth 3 (Args E) "")))]
             /\ snd (NewBlobV0 E (slice ns)
                       (bytes_of_string (nth 3 (Args E) ""))) = None)
  /\ (forall height ns c,
        In (CallGet height ns c) (snd (run E n)) ->
        exists decoded created st,
          createNamespaceID (nth 2 (Args E) "") = (decoded, None)
          /\ ns = slice decoded
          /\ NewBlobV0 E (slice decoded) (bytes_of_string (nth 3 (Args E) ""))
             = (Some created, None)
          /\ c = blob.Commitment created
          /\ Submit E n [Some created] blob.DefaultGasPrice
             = (st, (height, None))).
Proof.
  run_cases; (split; [|split]); intros;
    match goal with
    | Hin : In _ _ |- _ =>
        simpl in Hin;
        repeat (destruct Hin as [Hin | Hin]; try discriminate Hin);
        try contradiction; inversion Hin; subst; clear Hin
    end.
  all: try (split; reflexivity).
  all: try (split; [reflexivity|]; eexists; split; [reflexivity|];
            match goal with
            | Heq : NewBlobV0 _ _ _ = _ |- _ => rewrite Heq
            end; split; reflexivity).
  all: do 3 eexists;
    (split; [reflexivity|]); (split; [reflexivity|]);
    (split; [eassumption|]); (split; [reflexivity|]); eassumption.
Qed.

(** X14. No failure is silent: a run that ends with status 1 has printed,
    as the last thing it did, the usage line (the argument count being
    wrong) or the line of the step that failed, carrying the very error
    that step's callee returned: the client constructor's, the namespace
    codec's, the blob constructor's or the submission's (each wrapped by
    [createAndSubmitBlob]), the fetch's, or that of the completion step
    (the missing credential, or the service's fault wrapped by [gpt3]). *)
Theorem main_fatal_logged (E : Env) (n : node E) :
  fst (run E n) = 1 ->
  (len (Args E) <> 4 /\ last (snd (run E n)) CallClose = usage)
  \/ (exists client e,
        NewClient E n (nth 1 (Args E) "") "" = (client, Some e)
        /\ last (snd (run E n)) CallClose
           = LogPrintf "Failed to create client: %v" [ArgError e])
  \/ (exists decoded e,
        createNamespaceID (nth 2 (Args E) "") = (decoded, Some e)
        /\ last (snd (run E n)) CallClose
           = LogPrintf "Failed to decode namespace: %v" [ArgError e])
  \/ (exists decoded created e,
        createNamespaceID (nth 2 (Args E) "") = (decoded, None)
        /\ NewBlobV0 E (slice decoded) (bytes_of_string (nth 3 (Args E) ""))
           = (created, Some e)
        /\ last (snd (run E n)) CallClose
           = LogPrint [ArgError (Errorf1 "Failed to create blob: %w" e)])
  \/ (exists decoded created st height e,
        createNamespaceID (nth 2 (Args E) "") = (decoded, None)
        /\ NewBlobV0 E (slice decoded) (bytes_of_string (nth 3 (Args E) ""))
           = (created, None)
        /\ Submit E n [created] blob.DefaultGasPrice = (st, (height, Some e))
        /\ last (snd (run E n)) CallClose
           = LogPrint [ArgError (Errorf1 "Failed to submit blob: %v" e)])
  \/ (exists st height ns c fetched e,
        In (CallGet height ns c) (snd (run E n))
        /\ Get E st height ns c = (fetched, Some e)
        /\ last (snd (run E n)) CallClose
           = LogPrintf "Failed to fetch blob: %v" [ArgError e])
  \/ (Getenv E "OPENAI_KEY" = ""
      /\ last (snd (run E n)) CallClose
         = LogPrintf "Failed to process message with GPT-3: %v"
             [ArgError (Errorf0 "OPENAI_KEY environment variable not set")])
  \/ (exists req resp e,
        In (CallCreateChatCompletion (Getenv E "OPENAI_KEY") req) (snd (run E n))
        /\ CreateChatCompletion E (Getenv E "OPENAI_KEY") req = (resp, Some e)
        /\ last (snd (run E n)) CallClose
           = LogPrintf "Failed to process message with GPT-3: %v"
               [ArgError (Errorf1 "ChatCompletion error: %w" e)]).
Proof.
  run_cases; intros H; try discriminate H; cbn [last];
    first [ left; solve [close_case]
          | right; left; solve [close_case]
          | do 2 right; left; solve [close_case]
          | do 3 right; left; solve [close_case]
          | do 4 right; left; solve [close_case]
          | do 5 right; left; solve [close_case]
          | do 6 right; left; solve [close_case]
          | do 7 right; solve [close_case] ].
Qed.

Lemma main_fatal_logged_witness :
  Getenv (ref.scenario "") "OPENAI_KEY" = ""
  /\ last (snd (run (ref.scenario "") [])) CallClose
     = LogPrintf "Failed to process message with GPT-3: %v"
         [ArgError (Errorf0 "OPENAI_KEY environment variable not set")].
Proof.
  destruct (main_fatal_logged (ref.scenario "") [] eq_refl)
    as [[_ H] | [[? [? [_ H]]] | [[? [? [_ H]]] | [[? [? [? [_ [_ H]]]]]
        | [[? [? [? [? [? [_ [_ [_ H]]]]]]]] | [[? [? [? [? [? [? [_ [_ H]]]]]]]]
        | [H | [? [? [? [_ [_ H]]]]]]]]]]]];
    try discriminate H.
  exact H.
Defined.
